(** * Sentiment dashboard: scoring pass, keyword extraction, session state
      and CSV export

    A shallow embedding of [SentimentDashboard] (scoring pass
    [analyzeSentiment], [extractKeywords], the handlers [handleAnalyze] and
    [handleNewAnalysis]) and of [exportToCSV] from [ExportResults.tsx].

    Modelling conventions.
    - A JavaScript string is a [string]: a sequence of 8-bit code units, that
      is the Latin-1 part of UTF-16.  [toLowerCase] and the regular
      expression classes [\W] and white space are written out for that range.
    - A JavaScript number is an exact rational ([Q]); IEEE-754 rounding is
      not modelled.  Equalities between scores are therefore [Qeq] ([==]).
    - [Array.prototype.sort] is the stable sort ECMAScript requires,
      written as an insertion sort over the comparator of the source.
    - [new Date()] is an input ([now], milliseconds since the epoch) and
      [Date.prototype.toISOString] a parameter of the export section. *)

From Stdlib Require Import List Bool Arith Lia ZArith QArith Qround Lqa.
From Stdlib Require Import Strings.String Strings.Ascii.
From Stdlib Require Import Sorting.Sorted Sorting.Permutation.
From Stdlib Require Import Numbers.DecimalString.
Import ListNotations.

Local Close Scope Q_scope.
Local Open Scope string_scope.
Local Open Scope list_scope.

(** ** Host string operations *)

Module JsString.

Definition inRange (lo hi n : nat) : bool := (lo <=? n)%nat && (n <=? hi)%nat.

(** [String.prototype.toLowerCase] on one code unit: A-Z, and the Latin-1
    capitals U+00C0..U+00DE except the multiplication sign U+00D7. *)
Definition lowerChar (c : ascii) : ascii :=
  let n := nat_of_ascii c in
  if inRange 65 90 n || (inRange 192 222 n && negb (n =? 215)%nat)
  then ascii_of_nat (n + 32)
  else c.

Fixpoint toLowerCase (s : string) : string :=
  match s with
  | EmptyString => EmptyString
  | String c s' => String (lowerChar c) (toLowerCase s')
  end.

(** The class [\w] of a regular expression without flags: [A-Za-z0-9_]. *)
Definition isWordChar (c : ascii) : bool :=
  let n := nat_of_ascii c in
  inRange 48 57 n || inRange 65 90 n || (n =? 95)%nat || inRange 97 122 n.

(** White space as [String.prototype.trim] sees it (TAB, LF, VT, FF, CR,
    SPACE, NBSP). *)
Definition isWhiteSpace (c : ascii) : bool :=
  let n := nat_of_ascii c in
  inRange 9 13 n || (n =? 32)%nat || (n =? 160)%nat.

(** [!s.trim()]: the trimmed string is empty exactly when every code unit
    is white space. *)
Fixpoint isBlank (s : string) : bool :=
  match s with
  | EmptyString => true
  | String c s' => isWhiteSpace c && isBlank s'
  end.

(** [text.includes(phrase)]. *)
Fixpoint includes (phrase text : string) : bool :=
  prefix phrase text ||
  match text with
  | EmptyString => false
  | String _ text' => includes phrase text'
  end.

(** [(text.match(new RegExp(word, 'g')) || []).length] for a [word] of
    plain letters: the matches are found left to right and do not overlap;
    after a match the scan resumes behind it.  [skip] counts the code units
    of the last match still to be passed over. *)
Fixpoint countFrom (word text : string) (skip : nat) : nat :=
  match text with
  | EmptyString => 0
  | String _ text' =>
      match skip with
      | S k => countFrom word text' k
      | O =>
          if prefix word text
          then S (countFrom word text' (String.length word - 1))
          else countFrom word text' 0
      end
  end.

Definition countMatches (word text : string) : nat := countFrom word text 0.

(** [(text.match(/!/g) || []).length]. *)
Definition countExclamations (text : string) : nat := countMatches "!" text.

(** [text.split(/\W+/)]: the pieces between the maximal runs of non-word
    code units; a run at either end leaves an empty piece there, and the
    empty string splits into one empty piece. *)
Fixpoint split (s : string) : list string :=
  match s with
  | EmptyString => [EmptyString]
  | String c s' =>
      if isWordChar c then
        match split s' with
        | piece :: pieces => String c piece :: pieces
        | [] => [String c EmptyString]
        end
      else
        match s' with
        | String c' _ =>
            if isWordChar c' then EmptyString :: split s' else split s'
        | EmptyString => EmptyString :: split s'
        end
  end.

(** [pieces.join(sep)]. *)
Fixpoint join (sep : string) (pieces : list string) : string :=
  match pieces with
  | [] => EmptyString
  | [p] => p
  | p :: rest => p ++ sep ++ join sep rest
  end.

(** The global replace of the CSV text field: every double quote (code
    unit 34) is doubled. *)
Fixpoint escapeQuotes (s : string) : string :=
  match s with
  | EmptyString => EmptyString
  | String c s' =>
      if Ascii.eqb c (ascii_of_nat 34)
      then String c (String c (escapeQuotes s'))
      else String c (escapeQuotes s')
  end.

(** [arr.includes(w)] on an array of strings. *)
Definition mem (w : string) (arr : list string) : bool :=
  existsb (String.eqb w) arr.

End JsString.

Import JsString.

(** ** Data model *)

Record SentimentResult : Type := mkSentiment {
  label : string;
  score : Q
}.

Record AnalysisResult : Type := mkAnalysis {
  sentiment : list SentimentResult;
  confidence : Q;
  keywords : list string;
  text : string;
  timestamp : Z
}.

(** ** JavaScript numbers, as exact rationals *)

Module JsNumber.

(** [x === 0]. *)
Definition isZero (x : Q) : bool := Qeq_bool x 0.

(** [x > y]. *)
Definition gt (x y : Q) : bool := negb (Qle_bool x y).

(** A natural number (a length or a match count) as a number. *)
Definition ofNat (n : nat) : Q := inject_Z (Z.of_nat n).

(** [Math.round]: the nearest integer, halves towards plus infinity. *)
Definition round (x : Q) : Z := Qfloor (x + (1 # 2)).

(** A whole number printed in decimal. *)
Definition toString (z : Z) : string := NilZero.string_of_int (Z.to_int z).

End JsNumber.

Import JsNumber.

(** ** The scoring pass *)

Module Scorer.

Definition positiveWords : list string :=
  ["good"; "great"; "excellent"; "amazing"; "wonderful"; "fantastic"; "love";
   "like"; "happy"; "perfect"; "best"; "awesome"; "brilliant"; "outstanding";
   "superb"].

Definition negativeWords : list string :=
  ["bad"; "terrible"; "awful"; "horrible"; "hate"; "worst"; "disappointing";
   "poor"; "sad"; "angry"; "disgusting"; "pathetic"; "useless"; "annoying";
   "frustrated"].

Definition neutralWords : list string :=
  ["okay"; "fine"; "average"; "normal"; "standard"; "typical"; "regular";
   "moderate"].

Definition strongNegativePhrases : list string :=
  ["no one should"; "never again"; "waste of money";
   "completely disappointed"].

(** The three running totals of the pass. *)
Record Scores : Type := mkScores {
  positiveScore : Q;
  negativeScore : Q;
  neutralScore : Q
}.

(** [words.forEach(word => { score += matches })], from [start]. *)
Definition countWords (words : list string) (lowered : string) (start : Q) : Q :=
  fold_left (fun acc word => (acc + ofNat (countMatches word lowered))%Q)
            words start.

(** The three counting loops over the lower-cased text. *)
Definition wordScores (lowered : string) : Scores :=
  {| positiveScore := countWords positiveWords lowered 0;
     negativeScore := countWords negativeWords lowered 0;
     neutralScore := countWords neutralWords lowered 0 |}.

(** [strongNegativePhrases.forEach(...)]: weight 3 per phrase present. *)
Definition addStrongPhrases (lowered : string) (s : Scores) : Scores :=
  {| positiveScore := positiveScore s;
     negativeScore :=
       fold_left (fun acc phrase =>
                    if includes phrase lowered then (acc + 3)%Q else acc)
                 strongNegativePhrases (negativeScore s);
     neutralScore := neutralScore s |}.

(** The exclamation-mark adjustment. *)
Definition addExclamations (exclamations : nat) (s : Scores) : Scores :=
  if (0 <? exclamations)%nat then
    if gt (negativeScore s) (positiveScore s) then
      {| positiveScore := positiveScore s;
         negativeScore := (negativeScore s + ofNat exclamations * (1 # 2))%Q;
         neutralScore := neutralScore s |}
    else if gt (positiveScore s) (negativeScore s) then
      {| positiveScore := (positiveScore s + ofNat exclamations * (1 # 2))%Q;
         negativeScore := negativeScore s;
         neutralScore := neutralScore s |}
    else s
  else s.

(** "Set base scores if no sentiment words found". *)
Definition setBaseScores (s : Scores) : Scores :=
  if isZero (positiveScore s) && isZero (negativeScore s)
     && isZero (neutralScore s)
  then {| positiveScore := positiveScore s;
          negativeScore := negativeScore s;
          neutralScore := 1 |}
  else s.

(** The totals after the word lists and the strong phrases. *)
Definition scoresBeforeExclamations (inputText : string) : Scores :=
  let lowered := toLowerCase inputText in
  addStrongPhrases lowered (wordScores lowered).

(** The totals after the exclamation adjustment. *)
Definition scoresAfterExclamations (inputText : string) : Scores :=
  addExclamations (countExclamations (toLowerCase inputText))
                  (scoresBeforeExclamations inputText).

(** The totals when the sentiment array is created. *)
Definition rawScores (inputText : string) : Scores :=
  setBaseScores (scoresAfterExclamations inputText).

(** "Create sentiment array". *)
Definition sentimentArray (s : Scores) : list SentimentResult :=
  [ {| label := "POSITIVE"; score := positiveScore s |};
    {| label := "NEGATIVE"; score := negativeScore s |};
    {| label := "NEUTRAL";
       score := if isZero (neutralScore s) then 1 # 10 else neutralScore s |} ].

(** [sentiment.reduce((sum, item) => sum + item.score, 0)]. *)
Definition total (arr : list SentimentResult) : Q :=
  fold_left (fun sum item => (sum + score item)%Q) arr 0%Q.

(** [sentiment.forEach(item => item.score = item.score / total)].  A zero
    divisor would leave the rationals (NaN or Infinity in the source); the
    model stops there with [None]. *)
Definition normalize (arr : list SentimentResult) : option (list SentimentResult) :=
  let t := total arr in
  if isZero t then None
  else Some (map (fun item => {| label := label item;
                                 score := (score item / t)%Q |}) arr).

(** The comparator [(a, b) => b.score - a.score]. *)
Definition compareFn (a b : SentimentResult) : Q := (score b - score a)%Q.

(** [Array.prototype.sort] with [compareFn]: [a] stays in front of [b]
    unless the comparator is positive. *)
Fixpoint insert (a : SentimentResult) (sorted : list SentimentResult)
  : list SentimentResult :=
  match sorted with
  | [] => [a]
  | b :: rest =>
      if Qle_bool (compareFn a b) 0 then a :: b :: rest
      else b :: insert a rest
  end.

Fixpoint sort (arr : list SentimentResult) : list SentimentResult :=
  match arr with
  | [] => []
  | a :: rest => insert a (sort rest)
  end.

Definition commonWords : list string :=
  ["that"; "this"; "with"; "have"; "will"; "been"; "they"; "there"; "their";
   "would"; "could"; "should"].

Definition extractKeywords (inputText : string) : list string :=
  let words :=
    filter (fun word => (3 <? String.length word)%nat)
           (split (toLowerCase inputText)) in
  firstn 5 (filter (fun word => negb (mem word commonWords)) words).

(** The scoring pass.  [None] stands for a pass that does not deliver a
    result: a zero divisor, or no first element for [sentiment[0]]. *)
Definition analyzeSentiment (inputText : string) (now : Z)
  : option AnalysisResult :=
  match normalize (sentimentArray (rawScores inputText)) with
  | None => None
  | Some normalized =>
      match sort normalized with
      | [] => None
      | (top :: _) as sorted =>
          Some {| sentiment := sorted;
                  confidence := score top;
                  keywords := extractKeywords inputText;
                  text := inputText;
                  timestamp := now |}
      end
  end.

End Scorer.

Import Scorer.

Definition showResult (r : option AnalysisResult) : list (string * Q) :=
  match r with
  | Some a => map (fun s => (label s, Qred (score s))) (sentiment a)
  | None => []
  end.

(** What the later steps rely on. *)
Definition nonNegative (s : Scores) : Prop :=
  (0 <= positiveScore s /\ 0 <= negativeScore s /\ 0 <= neutralScore s)%Q.

(** The neutral entry of the sentiment array. *)
Definition neutralEntry (s : Scores) : Q :=
  if isZero (neutralScore s) then 1 # 10 else neutralScore s.

(** The order of the sort: a larger score comes first. *)
Definition descending (a b : SentimentResult) : Prop := (score b <= score a)%Q.

(** The entries of an array whose score is [q]. *)
Definition withScore (q : Q) (arr : list SentimentResult) : list SentimentResult :=
  filter (fun item => Qeq_bool (score item) q) arr.

(** ** Session state of the dashboard *)

Module Dashboard.

(** The [useState] cells of [SentimentDashboard]. *)
Record State : Type := mkState {
  text : string;
  isAnalyzing : bool;
  results : list AnalysisResult;
  currentResult : option AnalysisResult;
  fileName : option string
}.

Definition initial : State :=
  {| text := ""; isAnalyzing := false; results := [];
     currentResult := None; fileName := None |}.

Definition handleNewAnalysis (st : State) : State :=
  {| text := "";
     isAnalyzing := isAnalyzing st;
     results := [];
     currentResult := None;
     fileName := None |}.

(** [handleAnalyze], run to completion; [now] is the instant [new Date()]
    reads.  A pass that delivers no result leaves the awaiting handler
    without its updates, the busy flag still set. *)
Definition handleAnalyze (now : Z) (st : State) : State :=
  if isBlank (text st) then st
  else
    match analyzeSentiment (text st) now with
    | Some result =>
        {| text := text st;
           isAnalyzing := false;
           results := result :: firstn 9 (results st);
           currentResult := Some result;
           fileName := fileName st |}
    | None =>
        {| text := text st;
           isAnalyzing := true;
           results := results st;
           currentResult := currentResult st;
           fileName := fileName st |}
    end.

(** The [onChange] of the text area. *)
Definition setText (value : string) (st : State) : State :=
  {| text := value;
     isAnalyzing := isAnalyzing st;
     results := results st;
     currentResult := currentResult st;
     fileName := fileName st |}.

(** [reader.onload] of [handleFileUpload], for an accepted file. *)
Definition fileLoaded (content name : string) (st : State) : State :=
  {| text := content;
     isAnalyzing := isAnalyzing st;
     results := results st;
     currentResult := currentResult st;
     fileName := Some name |}.

(** The user actions that update the state. *)
Inductive Event : Type :=
| Analyze (now : Z)
| NewAnalysis
| SetText (value : string)
| FileLoaded (content name : string).

Definition step (st : State) (ev : Event) : State :=
  match ev with
  | Analyze now => handleAnalyze now st
  | NewAnalysis => handleNewAnalysis st
  | SetText value => setText value st
  | FileLoaded content name => fileLoaded content name st
  end.

Definition run (evs : list Event) (st : State) : State := fold_left step evs st.

End Dashboard.

(** ** CSV export *)

Module ExportResults.

Definition newline : string := String (ascii_of_nat 10) EmptyString.

Definition dquote : string := String (ascii_of_nat 34) EmptyString.

Definition quoted (s : string) : string := dquote ++ s ++ dquote.

Definition headers : list string :=
  ["Timestamp"; "Text"; "Primary Sentiment"; "Confidence"; "Positive %";
   "Negative %"; "Neutral %"; "Keywords"].

(** [result.sentiment.find(s => s.label === lbl)?.score || 0]. *)
Definition scoreOf (lbl : string) (result : AnalysisResult) : Q :=
  match find (fun s => String.eqb (label s) lbl) (sentiment result) with
  | Some s => score s
  | None => 0%Q
  end.

(** [Math.round(x * 100) + '%']. *)
Definition percent (x : Q) : string := toString (round (x * 100)) ++ "%".

(** What the exporter does when its button is pressed. *)
Inductive Outcome : Type :=
| NothingToExport
| Threw
| Downloaded (csvContent : string).

Section WithClock.

(** [Date.prototype.toISOString], on milliseconds since the epoch. *)
Variable toISOString : Z -> string.

(** The eight fields of the row of one result, given its first sentiment. *)
Definition rowFields (top : SentimentResult) (result : AnalysisResult)
  : list string :=
  [ toISOString (timestamp result);
    quoted (escapeQuotes (text result));
    label top;
    percent (confidence result);
    percent (scoreOf "POSITIVE" result);
    percent (scoreOf "NEGATIVE" result);
    percent (scoreOf "NEUTRAL" result);
    quoted (join ", " (keywords result)) ].

(** One row; [result.sentiment[0].label] throws on an empty array. *)
Definition csvRow (result : AnalysisResult) : option string :=
  match sentiment result with
  | [] => None
  | top :: _ => Some (join "," (rowFields top result))
  end.

(** [dataToExport.map(...)], stopping at the first row that throws. *)
Fixpoint csvRows (data : list AnalysisResult) : option (list string) :=
  match data with
  | [] => Some []
  | result :: rest =>
      match csvRow result with
      | None => None
      | Some row =>
          match csvRows rest with
          | None => None
          | Some rows => Some (row :: rows)
          end
      end
  end.

Definition dataToExport (results : list AnalysisResult)
  (currentResult : option AnalysisResult) : list AnalysisResult :=
  match currentResult with
  | Some current => [current]
  | None => results
  end.

(** The rows joined by line feeds into [csvContent], header first. *)
Definition csvLines (results : list AnalysisResult)
  (currentResult : option AnalysisResult) : option (list string) :=
  match csvRows (dataToExport results currentResult) with
  | None => None
  | Some rows => Some (join "," headers :: rows)
  end.

Definition exportToCSV (results : list AnalysisResult)
  (currentResult : option AnalysisResult) : Outcome :=
  match currentResult, results with
  | None, [] => NothingToExport
  | _, _ =>
      match csvLines results currentResult with
      | None => Threw
      | Some lines => Downloaded (join newline lines)
      end
  end.

End WithClock.

End ExportResults.

(** ** Predicates used in the statements *)

(** No listed word and no strong phrase occurs in the lower-cased text. *)
Definition signalFree (lowered : string) : bool :=
  forallb (fun w => negb (includes w lowered))
          (positiveWords ++ negativeWords ++ neutralWords
           ++ strongNegativePhrases).

(** The labels and scores of a sentiment array, side by side. *)
Definition ranking (arr : list SentimentResult) : list (string * Q) :=
  map (fun item => (label item, score item)) arr.

(** Every code unit of [s] is a word character. *)
Fixpoint allWordChars (s : string) : bool :=
  match s with
  | EmptyString => true
  | String c s' => isWordChar c && allWordChars s'
  end.

(** The test a token has to pass to become a keyword. *)
Definition isKeyword (word : string) : bool :=
  (3 <? String.length word)%nat && negb (mem word commonWords).

(** The normalised sentiment array of a text, before the sort. *)
Definition normalizedArray (inputText : string) : list SentimentResult :=
  let s := rawScores inputText in
  let t := total (sentimentArray s) in
  [ {| label := "POSITIVE"; score := (positiveScore s / t)%Q |};
    {| label := "NEGATIVE"; score := (negativeScore s / t)%Q |};
    {| label := "NEUTRAL"; score := (neutralEntry s / t)%Q |} ].

(** The label of the first entry, [sentiment[0].label]. *)
Definition primaryLabel (result : AnalysisResult) : option string :=
  match sentiment result with
  | [] => None
  | top :: _ => Some (label top)
  end.

(** Number of code units of [s] equal to [c]. *)
Fixpoint countChar (c : ascii) (s : string) : nat :=
  match s with
  | EmptyString => 0
  | String d s' => (if Ascii.eqb d c then 1 else 0) + countChar c s'
  end.

(** ** The explanation card *)

Module SentimentExplanation.

Definition positiveWords : list string :=
  ["good"; "great"; "excellent"; "amazing"; "wonderful"; "fantastic"; "love";
   "like"; "happy"; "perfect"; "best"; "awesome"; "brilliant"; "outstanding";
   "superb"].

Definition negativeWords : list string :=
  ["bad"; "terrible"; "awful"; "horrible"; "hate"; "worst"; "disappointing";
   "poor"; "sad"; "angry"; "disgusting"; "pathetic"; "useless"; "annoying";
   "frustrated"].

Definition strongNegativePhrases : list string :=
  ["no one should"; "never again"; "waste of money";
   "completely disappointed"].

Record Feature : Type := mkFeature {
  type : string;
  description : string;
  impact : string
}.

(** The class [[A-Z]]. *)
Definition isUpper (c : ascii) : bool := inRange 65 90 (nat_of_ascii c).

(** [(text.match(/[A-Z]{2,}/g) || []).length]: the greedy quantifier takes a
    whole run of capitals, so the matches are the maximal runs of length two
    or more.  [run] is the length of the run being read. *)
Fixpoint countAllCapsFrom (s : string) (run : nat) : nat :=
  match s with
  | EmptyString => if (2 <=? run)%nat then 1 else 0
  | String c s' =>
      if isUpper c then countAllCapsFrom s' (S run)
      else (if (2 <=? run)%nat then 1 else 0) + countAllCapsFrom s' 0
  end.

Definition countAllCaps (s : string) : nat := countAllCapsFrom s 0.

(** [n > 1 ? 's' : '']. *)
Definition plural (n : nat) : string := if (1 <? n)%nat then "s" else "".

(** One [features.push(...)] under its guard. *)
Definition pushIf (guard : bool) (feature : Feature) : list Feature :=
  if guard then [feature] else [].

Definition analyzeTextFeatures (text : string) : list Feature :=
  let lowerText := toLowerCase text in
  let foundPositive := filter (fun word => includes word lowerText) positiveWords in
  let foundNegative := filter (fun word => includes word lowerText) negativeWords in
  let foundStrongNegative :=
    filter (fun phrase => includes phrase lowerText) strongNegativePhrases in
  let exclamations := countMatches "!" text in
  let allCaps := countAllCaps text in
  pushIf (0 <? List.length foundPositive)%nat
    {| type := "positive";
       description := "Contains positive words: " ++ join ", " foundPositive;
       impact := "Increases positive sentiment" |}
  ++ pushIf (0 <? List.length foundNegative)%nat
    {| type := "negative";
       description := "Contains negative words: " ++ join ", " foundNegative;
       impact := "Increases negative sentiment" |}
  ++ pushIf (0 <? List.length foundStrongNegative)%nat
    {| type := "negative";
       description := "Contains strong negative phrases: "
                      ++ join ", " foundStrongNegative;
       impact := "Strongly increases negative sentiment" |}
  ++ pushIf (0 <? exclamations)%nat
    {| type := "emotional";
       description := toString (Z.of_nat exclamations) ++ " exclamation mark"
                      ++ plural exclamations ++ " detected";
       impact := "Indicates emotional intensity" |}
  ++ pushIf (0 <? allCaps)%nat
    {| type := "emotional";
       description := toString (Z.of_nat allCaps) ++ " all-caps word"
                      ++ plural allCaps ++ " detected";
       impact := "Indicates strong emphasis or emotion" |}.

Definition getFeatureColor (type : string) : string :=
  if String.eqb type "positive" then "positive"
  else if String.eqb type "negative" then "negative"
  else if String.eqb type "emotional" then "secondary"
  else "outline".

(** Whether a feature with the given impact line is shown. *)
Definition showsImpact (line : string) (features : list Feature) : bool :=
  existsb (fun feature => String.eqb (impact feature) line) features.

End SentimentExplanation.

(** ** Badges and charts of the dashboard *)

Module Charts.

Definition getSentimentBadgeVariant (label : string) : string :=
  if String.eqb label "POSITIVE" then "positive"
  else if String.eqb label "NEGATIVE" then "negative"
  else if String.eqb label "NEUTRAL" then "neutral"
  else "secondary".

Definition getSentimentColor (label : string) : string :=
  if String.eqb label "POSITIVE" then "hsl(var(--positive))"
  else if String.eqb label "NEGATIVE" then "hsl(var(--negative))"
  else if String.eqb label "NEUTRAL" then "hsl(var(--neutral))"
  else "hsl(var(--neutral))".

Record PieEntry : Type := mkPie {
  pieName : string;
  pieValue : Z;
  pieColor : string
}.

(** [currentResult?.sentiment.map(...) || []]. *)
Definition pieData (currentResult : option AnalysisResult) : list PieEntry :=
  match currentResult with
  | Some current =>
      map (fun item => {| pieName := label item;
                          pieValue := round (score item * 100);
                          pieColor := getSentimentColor (label item) |})
          (sentiment current)
  | None => []
  end.

Record BarEntry : Type := mkBar {
  barName : string;
  positive : Z;
  negative : Z;
  neutral : Z
}.

(** [arr.map((item, index) => f(item, index))], from index [start]. *)
Fixpoint mapWithIndex {A B : Type} (f : A -> nat -> B) (start : nat)
  (arr : list A) : list B :=
  match arr with
  | [] => []
  | item :: rest => f item start :: mapWithIndex f (S start) rest
  end.

Definition barOf (count : nat) (result : AnalysisResult) (index : nat)
  : BarEntry :=
  {| barName := "Text " ++ toString (Z.of_nat count - Z.of_nat index);
     positive := round (ExportResults.scoreOf "POSITIVE" result * 100);
     negative := round (ExportResults.scoreOf "NEGATIVE" result * 100);
     neutral := round (ExportResults.scoreOf "NEUTRAL" result * 100) |}.

(** [results.slice(0, 5).map(...).reverse()]. *)
Definition barData (results : list AnalysisResult) : list BarEntry :=
  rev (mapWithIndex (barOf (List.length results)) 0 (firstn 5 results)).

End Charts.

(** ** File upload *)

Module Upload.

(** What the handler reads of the chosen file, and what the reader
    delivers. *)
Record File : Type := mkFile {
  name : string;
  type : string;
  content : string
}.

(** [s.endsWith(suffix)]. *)
Definition endsWith (suffix s : string) : bool :=
  (String.length suffix <=? String.length s)%nat
  && String.eqb (substring (String.length s - String.length suffix)
                           (String.length suffix) s)
                suffix.

(** [file.type.startsWith('text/') || file.name.endsWith('.txt')], the
    negation of the test that raises the alert. *)
Definition accepted (file : File) : bool :=
  prefix "text/" (type file) || endsWith ".txt" (name file).

(** [handleFileUpload], with the reader run to completion.  The second
    component tells whether the alert was raised. *)
Definition handleFileUpload (file : option File) (st : Dashboard.State)
  : Dashboard.State * bool :=
  match file with
  | None => (st, false)
  | Some f =>
      if negb (prefix "text/" (type f)) && negb (endsWith ".txt" (name f))
      then (st, true)
      else (Dashboard.fileLoaded (content f) (name f) st, false)
  end.

End Upload.

(** The state the handlers maintain: the current result is the newest entry
    of the list, every entry came out of the scoring pass on its own
    non-blank text, and no pass is left running. *)
Definition coherent (st : Dashboard.State) : Prop :=
  Dashboard.currentResult st = hd_error (Dashboard.results st) /\
  Forall (fun r => isBlank (text r) = false /\
                   exists now, analyzeSentiment (text r) now = Some r)
         (Dashboard.results st) /\
  Dashboard.isAnalyzing st = false.

(** ** PDF export *)

Module PdfExport.

(** The calls made on the jsPDF document, in order. *)
Inductive Op : Type :=
| SetFontSize (size : Z)
| DrawText (lines : list string) (x y : Z)
| AddPage
| Save (fileName : string).

Inductive Outcome : Type :=
| NothingToExport
| Threw
| Saved (ops : list Op).

(** [textLines.slice(0, 3)], with an ellipsis on the third line when lines
    were cut. *)
Definition displayLines (textLines : list string) : list string :=
  let shown := firstn 3 textLines in
  if (3 <? List.length textLines)%nat then
    match shown with
    | [first; second; third] => [first; second; (third ++ "...")%string]
    | _ => shown
    end
  else shown.

(** [s.split('T')[0]]. *)
Fixpoint beforeT (s : string) : string :=
  match s with
  | EmptyString => EmptyString
  | String c s' =>
      if Ascii.eqb c (ascii_of_nat 84) then EmptyString
      else String c (beforeT s')
  end.

(** [result.sentiment.forEach(...)]: one line per sentiment, 6 apart. *)
Fixpoint drawScores (items : list SentimentResult) (y : Z) : list Op * Z :=
  match items with
  | [] => ([], y)
  | item :: rest =>
      let (ops, y') := drawScores rest (y + 6) in
      (DrawText [(label item ++ ": " ++ toString (round (score item * 100))
                  ++ "%")%string] 30 y :: ops,
       y')
  end.

Section WithHost.

(** [doc.splitTextToSize], and the three date formats of the host. *)
Variable splitTextToSize : string -> Z -> list string.
Variable toLocaleString : Z -> string.
Variable toLocaleDateString : Z -> string.
Variable toISOString : Z -> string.

(** The body of the loop for one result: the calls made and the cursor
    afterwards.  [result.sentiment[0]] throws on an empty array. *)
Definition drawResult (index : nat) (result : AnalysisResult) (yPosition : Z)
  : option (list Op * Z) :=
  match sentiment result with
  | [] => None
  | top :: _ =>
      let newPage := (250 <? yPosition)%Z in
      let y0 := if newPage then 30%Z else yPosition in
      let y1 := (y0 + 10)%Z in
      let y2 := (y1 + 8)%Z in
      let lines :=
        displayLines (splitTextToSize ("Text: " ++ text result)%string 170) in
      let y3 := (y2 + (Z.of_nat (List.length lines) * 5 + 5))%Z in
      let y4 := (y3 + 8)%Z in
      let (scoreOps, y5) := drawScores (sentiment result) y4 in
      let hasKeywords := (0 <? List.length (keywords result))%nat in
      let y6 := if hasKeywords then (y5 + 8)%Z else y5 in
      Some ((if newPage then [AddPage] else [])
            ++ [ SetFontSize 14;
                 DrawText [("Analysis " ++ toString (Z.of_nat index + 1))%string] 20 y0;
                 SetFontSize 10;
                 DrawText [("Date: " ++ toLocaleString (timestamp result))%string] 20 y1;
                 DrawText lines 20 y2;
                 DrawText [("Primary Sentiment: " ++ label top ++ " ("
                            ++ toString (round (confidence result * 100))
                            ++ "% confidence)")%string] 20 y3 ]
            ++ scoreOps
            ++ (if hasKeywords
                then [DrawText [("Keywords: "
                                 ++ join ", " (keywords result))%string]
                               20 y5]
                else []),
            (y6 + 10)%Z)
  end.

(** [dataToExport.forEach((result, index) => ...)]. *)
Fixpoint drawResults (index : nat) (data : list AnalysisResult) (yPosition : Z)
  : option (list Op) :=
  match data with
  | [] => Some []
  | result :: rest =>
      match drawResult index result yPosition with
      | None => None
      | Some (ops, y') =>
          match drawResults (S index) rest y' with
          | None => None
          | Some more => Some (ops ++ more)
          end
      end
  end.

Definition exportToPDF (results : list AnalysisResult)
  (currentResult : option AnalysisResult) (now : Z) : Outcome :=
  match currentResult, results with
  | None, [] => NothingToExport
  | _, _ =>
      let data := ExportResults.dataToExport results currentResult in
      match drawResults 0 data 75 with
      | None => Threw
      | Some ops =>
          Saved ([ SetFontSize 20;
                   DrawText ["Sentiment Analysis Report"] 20 30;
                   SetFontSize 12;
                   DrawText [("Generated on: " ++ toLocaleDateString now)%string] 20 45;
                   DrawText [("Total Analyses: "
                              ++ toString (Z.of_nat (List.length data)))%string]
                            20 55 ]
                 ++ ops
                 ++ [Save ("sentiment-analysis-" ++ beforeT (toISOString now)
                           ++ ".pdf")%string])
      end
  end.

End WithHost.

(** A text is drawn at a height between [lo] and [hi]; other calls pass. *)
Definition drawnWithin (lo hi : Z) (op : Op) : Prop :=
  match op with
  | DrawText _ x y => (lo <= y <= hi)%Z /\ (x = 20 \/ x = 30)%Z
  | _ => True
  end.

(** Number of page breaks among the calls. *)
Fixpoint pageBreaks (ops : list Op) : nat :=
  match ops with
  | [] => 0
  | AddPage :: rest => S (pageBreaks rest)
  | _ :: rest => pageBreaks rest
  end.

End PdfExport.

(** ** Keyword extraction, as the specification words it

    A second description of [extractKeywords], written from the sentence
    "lower-case the text, split it on non-word-character boundaries, keep
    the tokens longer than 3 characters, drop the stop words, take the first
    5 in original order".  It shares nothing with the model of the code:
    letters are looked up in alphabets written out here, and the tokens are
    collected by one pass from left to right. *)

Module KeywordSpec.

Definition upperLetters : string := "ABCDEFGHIJKLMNOPQRSTUVWXYZ".

Definition lowerLetters : string := "abcdefghijklmnopqrstuvwxyz".

(** The capital letters of Latin-1 beyond ASCII and, in the same order,
    their small forms. *)
Definition upperLatin : string :=
  string_of_list_ascii
    (map ascii_of_nat
         [192; 193; 194; 195; 196; 197; 198; 199; 200; 201; 202; 203; 204;
          205; 206; 207; 208; 209; 210; 211; 212; 213; 214; 216; 217; 218;
          219; 220; 221; 222]).

Definition lowerLatin : string :=
  string_of_list_ascii
    (map ascii_of_nat
         [224; 225; 226; 227; 228; 229; 230; 231; 232; 233; 234; 235; 236;
          237; 238; 239; 240; 241; 242; 243; 244; 245; 246; 248; 249; 250;
          251; 252; 253; 254]).

(** The character of [into] at the place [c] has in [from]. *)
Fixpoint translate (from into : string) (c : ascii) : option ascii :=
  match from, into with
  | String a from', String b into' =>
      if Ascii.eqb c a then Some b else translate from' into' c
  | _, _ => None
  end.

(** A capital letter becomes its small form; anything else stays. *)
Definition lowerLetter (c : ascii) : ascii :=
  match translate (upperLetters ++ upperLatin) (lowerLetters ++ lowerLatin) c with
  | Some small => small
  | None => c
  end.

Fixpoint lowerCased (s : string) : string :=
  match s with
  | EmptyString => EmptyString
  | String c s' => String (lowerLetter c) (lowerCased s')
  end.

(** [c] is one of the characters of [alphabet]. *)
Fixpoint occursIn (c : ascii) (alphabet : string) : bool :=
  match alphabet with
  | EmptyString => false
  | String a alphabet' => Ascii.eqb c a || occursIn c alphabet'
  end.

(** A word character: a letter, a digit or the underscore. *)
Definition wordCharacter (c : ascii) : bool :=
  occursIn c (upperLetters ++ lowerLetters ++ "0123456789_").

(** The characters a keyword can be made of once the text is lower-cased. *)
Definition keywordCharacter (c : ascii) : bool :=
  occursIn c (lowerLetters ++ "0123456789_").

(** Every character of [s] passes the test [p]. *)
Fixpoint madeOf (p : ascii -> bool) (s : string) : bool :=
  match s with
  | EmptyString => true
  | String c s' => p c && madeOf p s'
  end.

Definition nonEmpty (s : string) : bool :=
  match s with
  | EmptyString => false
  | String _ _ => true
  end.

(** The tokens of [s], left to right: [current] collects word characters
    and is given out when a character that is no word character, or the
    end of the text, is met. *)
Fixpoint tokensFrom (s : string) (current : string) : list string :=
  match s with
  | EmptyString => if nonEmpty current then [current] else []
  | String c s' =>
      if wordCharacter c
      then tokensFrom s' (current ++ String c EmptyString)
      else (if nonEmpty current then [current] else []) ++ tokensFrom s' EmptyString
  end.

Definition tokens (s : string) : list string := tokensFrom s EmptyString.

Definition stopWords : list string :=
  ["that"; "this"; "with"; "have"; "will"; "been"; "they"; "there"; "their";
   "would"; "could"; "should"].

Definition survives (token : string) : bool :=
  (4 <=? String.length token)%nat
  && negb (existsb (String.eqb token) stopWords).

Definition specKeywords (inputText : string) : list string :=
  firstn 5 (filter survives (tokens (lowerCased inputText))).

End KeywordSpec.

(** * Properties *)

(** ** Worked examples *)

Example toLowerCase_ex : toLowerCase "This is GOOD!" = "this is good!".
Proof. reflexivity. Qed.

Example countMatches_ex : countMatches "aa" "aaaaa" = 2.
Proof. reflexivity. Qed.

Example countMatches_ex2 : countMatches "good" "goodgood, so good" = 3.
Proof. reflexivity. Qed.

Example split_ex : split " a, b  c!" = [""; "a"; "b"; "c"; ""].
Proof. reflexivity. Qed.

Example split_ex2 : split "" = [""] /\ split "  " = [""; ""].
Proof. split; reflexivity. Qed.

Example analyze_best :
  showResult (analyzeSentiment "This is the best, most amazing experience!" 0)
  = [("POSITIVE", 25 # 26); ("NEUTRAL", 1 # 26); ("NEGATIVE", 0)]%Q.
Proof. vm_compute. reflexivity. Qed.

Example analyze_worst :
  showResult (analyzeSentiment "This is the worst, most terrible waste of money" 0)
  = [("NEGATIVE", 50 # 51); ("NEUTRAL", 1 # 51); ("POSITIVE", 0)]%Q.
Proof. vm_compute. reflexivity. Qed.

Example analyze_plain :
  showResult (analyzeSentiment "The train leaves at noon" 0)
  = [("NEUTRAL", 1); ("POSITIVE", 0); ("NEGATIVE", 0)]%Q.
Proof. vm_compute. reflexivity. Qed.

Example analyze_tie :
  showResult (analyzeSentiment "good, bad, okay" 0)
  = [("POSITIVE", 1 # 3); ("NEGATIVE", 1 # 3); ("NEUTRAL", 1 # 3)]%Q.
Proof. vm_compute. reflexivity. Qed.

Example analyze_upper_case :
  showResult (analyzeSentiment "GOOD" 0)
  = [("POSITIVE", 10 # 11); ("NEUTRAL", 1 # 11); ("NEGATIVE", 0)]%Q.
Proof. vm_compute. reflexivity. Qed.

Example analyze_substring :
  showResult (analyzeSentiment "a badge" 0)
  = [("NEGATIVE", 10 # 11); ("NEUTRAL", 1 # 11); ("POSITIVE", 0)]%Q.
Proof. vm_compute. reflexivity. Qed.

Example extractKeywords_ex :
  extractKeywords "That wonderful movie was truly fantastic and memorable"
  = ["wonderful"; "movie"; "truly"; "fantastic"; "memorable"].
Proof. reflexivity. Qed.

(** ** Numbers: comparison lemmas *)

Section NumberFacts.

Lemma isZero_true (x : Q) : isZero x = true <-> (x == 0)%Q.
Proof. unfold isZero. apply Qeq_bool_iff. Qed.

Lemma isZero_false (x : Q) : isZero x = false <-> ~ (x == 0)%Q.
Proof.
  rewrite <- isZero_true. destruct (isZero x); split; congruence.
Qed.

Lemma gt_true (x y : Q) : gt x y = true <-> (y < x)%Q.
Proof.
  unfold gt. rewrite negb_true_iff.
  destruct (Qle_bool x y) eqn:E.
  - apply Qle_bool_iff in E. split; [discriminate | intro; lra].
  - split; [intros _ | reflexivity].
    destruct (Qlt_le_dec y x) as [H | H]; [exact H |].
    apply Qle_bool_iff in H. congruence.
Qed.

Lemma gt_false (x y : Q) : gt x y = false <-> (x <= y)%Q.
Proof.
  unfold gt. rewrite negb_false_iff. apply Qle_bool_iff.
Qed.

Lemma ofNat_nonneg (n : nat) : (0 <= ofNat n)%Q.
Proof.
  unfold ofNat. change 0%Q with (inject_Z 0). rewrite <- Zle_Qle. lia.
Qed.

Lemma ofNat_pos (n : nat) : (0 < n)%nat -> (0 < ofNat n)%Q.
Proof.
  intro H. unfold ofNat. change 0%Q with (inject_Z 0). rewrite <- Zlt_Qlt. lia.
Qed.

End NumberFacts.

(** ** The running totals are never negative *)

Section ScoreFacts.

Lemma countWords_nonneg (words : list string) (lowered : string) (start : Q) :
  (0 <= start)%Q -> (0 <= countWords words lowered start)%Q.
Proof.
  unfold countWords. revert start.
  induction words as [| w ws IH]; intros start Hs; simpl; [exact Hs |].
  apply IH. pose proof (ofNat_nonneg (countMatches w lowered)). lra.
Qed.

Lemma phrases_nonneg (phrases : list string) (lowered : string) (start : Q) :
  (0 <= start)%Q ->
  (0 <= fold_left (fun acc phrase =>
                     if includes phrase lowered then (acc + 3)%Q else acc)
                  phrases start)%Q.
Proof.
  revert start.
  induction phrases as [| p ps IH]; intros start Hs; simpl; [exact Hs |].
  apply IH. destruct (includes p lowered); lra.
Qed.

Lemma scoresBeforeExclamations_nonneg (inputText : string) :
  nonNegative (scoresBeforeExclamations inputText).
Proof.
  unfold nonNegative, scoresBeforeExclamations, addStrongPhrases, wordScores.
  cbn [positiveScore negativeScore neutralScore].
  repeat split.
  - apply countWords_nonneg; lra.
  - apply phrases_nonneg, countWords_nonneg; lra.
  - apply countWords_nonneg; lra.
Qed.

Lemma addExclamations_nonneg (e : nat) (s : Scores) :
  nonNegative s -> nonNegative (addExclamations e s).
Proof.
  intros (Hp & Hn & Hu). unfold addExclamations.
  pose proof (ofNat_nonneg e) as He.
  destruct (0 <? e)%nat; [| repeat split; assumption].
  destruct (gt (negativeScore s) (positiveScore s)).
  { unfold nonNegative; cbn; repeat split; try assumption. nra. }
  destruct (gt (positiveScore s) (negativeScore s)).
  { unfold nonNegative; cbn; repeat split; try assumption. nra. }
  repeat split; assumption.
Qed.

Lemma setBaseScores_nonneg (s : Scores) :
  nonNegative s -> nonNegative (setBaseScores s).
Proof.
  intros (Hp & Hn & Hu). unfold setBaseScores.
  destruct (isZero (positiveScore s) && isZero (negativeScore s)
            && isZero (neutralScore s));
    unfold nonNegative; cbn; repeat split; try assumption. lra.
Qed.

Lemma setBaseScores_signal (s : Scores) :
  let s' := setBaseScores s in
  ~ (positiveScore s' == 0 /\ negativeScore s' == 0 /\ neutralScore s' == 0)%Q.
Proof.
  unfold setBaseScores.
  destruct (isZero (positiveScore s)) eqn:Ep; cbn.
  2:{ apply isZero_false in Ep. tauto. }
  destruct (isZero (negativeScore s)) eqn:En; cbn.
  2:{ apply isZero_false in En. tauto. }
  destruct (isZero (neutralScore s)) eqn:Eu; cbn.
  2:{ apply isZero_false in Eu. tauto. }
  intros (_ & _ & H). lra.
Qed.

Lemma rawScores_nonneg (inputText : string) : nonNegative (rawScores inputText).
Proof.
  apply setBaseScores_nonneg, addExclamations_nonneg,
    scoresBeforeExclamations_nonneg.
Qed.

Lemma rawScores_signal (inputText : string) :
  let s := rawScores inputText in
  ~ (positiveScore s == 0 /\ negativeScore s == 0 /\ neutralScore s == 0)%Q.
Proof. apply setBaseScores_signal. Qed.

Lemma neutralEntry_pos (s : Scores) :
  (0 <= neutralScore s)%Q -> (0 < neutralEntry s)%Q.
Proof.
  intro H. unfold neutralEntry.
  destruct (isZero (neutralScore s)) eqn:E; [lra |].
  apply isZero_false in E. lra.
Qed.

Lemma total_sentimentArray (s : Scores) :
  (total (sentimentArray s)
   == positiveScore s + negativeScore s + neutralEntry s)%Q.
Proof. unfold total, sentimentArray, neutralEntry. cbn. lra. Qed.

Lemma total_rawScores_pos (inputText : string) :
  (0 < total (sentimentArray (rawScores inputText)))%Q.
Proof.
  rewrite total_sentimentArray.
  destruct (rawScores_nonneg inputText) as (Hp & Hn & Hu).
  pose proof (neutralEntry_pos _ Hu). lra.
Qed.

(** The normalised array, entry by entry. *)
Lemma normalize_rawScores (inputText : string) :
  let s := rawScores inputText in
  let t := total (sentimentArray s) in
  normalize (sentimentArray s)
  = Some [ {| label := "POSITIVE"; score := (positiveScore s / t)%Q |};
           {| label := "NEGATIVE"; score := (negativeScore s / t)%Q |};
           {| label := "NEUTRAL"; score := (neutralEntry s / t)%Q |} ].
Proof.
  intros s t. unfold normalize. fold t.
  pose proof (total_rawScores_pos inputText) as Ht. fold s t in Ht.
  destruct (isZero t) eqn:E.
  - apply isZero_true in E. lra.
  - reflexivity.
Qed.

End ScoreFacts.

(** ** The sort: a permutation, descending, and stable *)

Section SortFacts.

Lemma compareFn_le (a b : SentimentResult) :
  Qle_bool (compareFn a b) 0 = true <-> descending a b.
Proof.
  unfold compareFn, descending. rewrite Qle_bool_iff. split; intro; lra.
Qed.

Lemma insert_perm (a : SentimentResult) (l : list SentimentResult) :
  Permutation (insert a l) (a :: l).
Proof.
  induction l as [| b rest IH]; simpl; [reflexivity |].
  destruct (Qle_bool (compareFn a b) 0); [reflexivity |].
  rewrite IH. apply perm_swap.
Qed.

Lemma sort_perm (l : list SentimentResult) : Permutation (sort l) l.
Proof.
  induction l as [| a rest IH]; simpl; [reflexivity |].
  rewrite insert_perm. now constructor.
Qed.

Lemma insert_sorted (a : SentimentResult) (l : list SentimentResult) :
  StronglySorted descending l -> StronglySorted descending (insert a l).
Proof.
  induction 1 as [| b rest Hrest IH Hb]; simpl.
  - repeat constructor.
  - destruct (Qle_bool (compareFn a b) 0) eqn:E.
    + apply compareFn_le in E.
      constructor; [now constructor |].
      constructor; [exact E |].
      eapply Forall_impl; [| exact Hb].
      unfold descending in *. intros c Hc. lra.
    + constructor; [exact IH |].
      assert (Ha : descending b a).
      { unfold descending. destruct (Qlt_le_dec (score b) (score a)) as [H | H];
          [| exact H].
        assert (descending a b) as D by (unfold descending; lra).
        apply compareFn_le in D. congruence. }
      eapply Permutation_Forall; [symmetry; apply insert_perm |].
      now constructor.
Qed.

Lemma sort_sorted (l : list SentimentResult) : StronglySorted descending (sort l).
Proof.
  induction l as [| a rest IH]; simpl; [constructor | now apply insert_sorted].
Qed.

Lemma insert_withScore (q : Q) (a : SentimentResult) (l : list SentimentResult) :
  withScore q (insert a l) = withScore q (a :: l).
Proof.
  induction l as [| b rest IH]; simpl; [reflexivity |].
  destruct (Qle_bool (compareFn a b) 0) eqn:E; [reflexivity |].
  unfold withScore in *. simpl in *. rewrite IH.
  destruct (Qeq_bool (score a) q) eqn:Ea, (Qeq_bool (score b) q) eqn:Eb;
    try reflexivity.
  apply Qeq_bool_iff in Ea, Eb.
  assert (descending a b) as D by (unfold descending; lra).
  apply compareFn_le in D. congruence.
Qed.

Lemma sort_withScore (q : Q) (l : list SentimentResult) :
  withScore q (sort l) = withScore q l.
Proof.
  induction l as [| a rest IH]; simpl; [reflexivity |].
  rewrite insert_withScore. unfold withScore in *. simpl. now rewrite IH.
Qed.

Lemma total_from (l : list SentimentResult) (acc : Q) :
  (fold_left (fun sum item => sum + score item) l acc
   == acc + total l)%Q.
Proof.
  unfold total. revert acc.
  induction l as [| b rest IH]; intro acc; cbn [fold_left]; [lra |].
  rewrite (IH (acc + score b)%Q), (IH (0 + score b)%Q). lra.
Qed.

Lemma total_cons (a : SentimentResult) (l : list SentimentResult) :
  (total (a :: l) == score a + total l)%Q.
Proof.
  unfold total at 1. cbn [fold_left]. rewrite total_from. lra.
Qed.

Lemma total_perm (l l' : list SentimentResult) :
  Permutation l l' -> (total l == total l')%Q.
Proof.
  induction 1 as [| x l l' _ IH | x y l | l l' l'' _ IH1 _ IH2].
  - reflexivity.
  - rewrite !total_cons, IH. reflexivity.
  - rewrite !total_cons. lra.
  - now rewrite IH1.
Qed.

End SortFacts.

(** ** The scoring pass delivers a ranked, normalised result *)

Lemma sort_three (a b c : SentimentResult) :
  exists x y z, sort [a; b; c] = [x; y; z].
Proof.
  pose proof (Permutation_length (sort_perm [a; b; c])) as L.
  destruct (sort [a; b; c]) as [| x [| y [| z [| w l]]]]; try discriminate L.
  now exists x, y, z.
Qed.

(** The pass always delivers: the normalised array, its sorted form, and the
    record built from them. *)
Lemma analyzeSentiment_delivers (inputText : string) (now : Z) :
  exists normalized top rest,
    normalize (sentimentArray (rawScores inputText)) = Some normalized /\
    map label normalized = ["POSITIVE"; "NEGATIVE"; "NEUTRAL"] /\
    sort normalized = top :: rest /\
    analyzeSentiment inputText now
    = Some {| sentiment := top :: rest;
              confidence := score top;
              keywords := extractKeywords inputText;
              text := inputText;
              timestamp := now |}.
Proof.
  pose proof (normalize_rawScores inputText) as N. cbv zeta in N.
  eexists. 
  destruct (sort_three
    {| label := "POSITIVE";
       score := positiveScore (rawScores inputText)
                / total (sentimentArray (rawScores inputText)) |}
    {| label := "NEGATIVE";
       score := negativeScore (rawScores inputText)
                / total (sentimentArray (rawScores inputText)) |}
    {| label := "NEUTRAL";
       score := neutralEntry (rawScores inputText)
                / total (sentimentArray (rawScores inputText)) |})
    as (x & y & z & S).
  exists x, [y; z].
  split; [exact N |]. split; [reflexivity |]. split; [exact S |].
  unfold analyzeSentiment. rewrite N, S. reflexivity.
Qed.

(** The normalised scores lie in the unit interval and add up to one. *)
Lemma normalized_unit (inputText : string) (normalized : list SentimentResult) :
  normalize (sentimentArray (rawScores inputText)) = Some normalized ->
  Forall (fun item => 0 <= score item <= 1)%Q normalized /\
  (total normalized == 1)%Q.
Proof.
  pose proof (normalize_rawScores inputText) as N. cbv zeta in N.
  rewrite N. intros [= <-].
  pose proof (total_rawScores_pos inputText) as Ht.
  pose proof (total_sentimentArray (rawScores inputText)) as Et.
  destruct (rawScores_nonneg inputText) as (Hp & Hn & Hu).
  pose proof (neutralEntry_pos _ Hu) as Hf.
  set (t := total (sentimentArray (rawScores inputText))) in *.
  set (p := positiveScore (rawScores inputText)) in *.
  set (n := negativeScore (rawScores inputText)) in *.
  set (f := neutralEntry (rawScores inputText)) in *.
  split.
  - repeat constructor; cbn [score].
    all: try (apply Qle_shift_div_l; [exact Ht | lra]).
    all: apply Qle_shift_div_r; [exact Ht | lra].
  - unfold total. cbn [fold_left score].
    transitivity ((p + n + f) / t)%Q.
    + field. lra.
    + rewrite <- Et. field. lra.
Qed.

(** C1.  For every input text (a non-empty one in particular) the scoring
    pass returns exactly three (label, score) pairs, one each for POSITIVE,
    NEGATIVE and NEUTRAL; each score lies in [0,1] and the three add up to 1.
    Numbers are exact rationals here, so the sum is 1 exactly. *)
Theorem C1_three_scores_unit_sum (inputText : string) (now : Z) :
  exists result,
    analyzeSentiment inputText now = Some result /\
    List.length (sentiment result) = 3%nat /\
    Permutation (map label (sentiment result))
                ["POSITIVE"; "NEGATIVE"; "NEUTRAL"] /\
    Forall (fun item => 0 <= score item <= 1)%Q (sentiment result) /\
    (total (sentiment result) == 1)%Q.
Proof.
  destruct (analyzeSentiment_delivers inputText now)
    as (normalized & top & rest & N & L & S & A).
  destruct (normalized_unit _ _ N) as (U & T).
  pose proof (sort_perm normalized) as P. rewrite S in P.
  eexists. split; [exact A |]. cbn [sentiment].
  split; [| split; [| split]].
  - rewrite (Permutation_length P).
    rewrite <- (length_map label), L. reflexivity.
  - rewrite <- L. now apply Permutation_map.
  - eapply Permutation_Forall; [symmetry; exact P | exact U].
  - rewrite (total_perm _ _ P). exact T.
Qed.

(** C3.  The three normalised (label, score) pairs, created in the order
    POSITIVE, NEGATIVE, NEUTRAL, are returned sorted by descending score;
    entries of equal score keep that creation order (for every score [q] the
    entries with score [q] appear in the result as they do in the created
    array); and the confidence is the score of the first entry of the
    sorted array. *)
Theorem C3_sorted_stable_confidence (inputText : string) (now : Z) :
  exists normalized result,
    normalize (sentimentArray (rawScores inputText)) = Some normalized /\
    map label normalized = ["POSITIVE"; "NEGATIVE"; "NEUTRAL"] /\
    analyzeSentiment inputText now = Some result /\
    Permutation (sentiment result) normalized /\
    StronglySorted descending (sentiment result) /\
    (forall q, withScore q (sentiment result) = withScore q normalized) /\
    (exists top rest,
        sentiment result = top :: rest /\ confidence result = score top).
Proof.
  destruct (analyzeSentiment_delivers inputText now)
    as (normalized & top & rest & N & L & S & A).
  exists normalized. eexists.
  split; [exact N |]. split; [exact L |]. split; [exact A |].
  cbn [sentiment confidence]. rewrite <- S.
  split; [apply sort_perm |].
  split; [apply sort_sorted |].
  split; [intro q; apply sort_withScore |].
  exists top, rest. rewrite S. split; reflexivity.
Qed.

(** C8.  The scoring pass cannot fail: for every input string (a non-blank
    one in particular) the normalisation divisor, the sum of the three
    scores after the zero-signal default and the 0.1 neutral floor, is
    strictly positive, and the pass delivers a result. *)
Theorem C8_scoring_cannot_fail (inputText : string) (now : Z) :
  (0 < total (sentimentArray (rawScores inputText)))%Q /\
  (exists normalized,
      normalize (sentimentArray (rawScores inputText)) = Some normalized) /\
  (exists result, analyzeSentiment inputText now = Some result).
Proof.
  destruct (analyzeSentiment_delivers inputText now)
    as (normalized & top & rest & N & _ & _ & A).
  split; [apply total_rawScores_pos |].
  split; [now exists normalized | eexists; exact A].
Qed.

(** C10.  For every input text the returned confidence is at least 1/3,
    hence strictly positive: it is the largest of three non-negative scores
    that add up to 1. *)
Theorem C10_confidence_at_least_third (inputText : string) (now : Z) :
  exists result,
    analyzeSentiment inputText now = Some result /\
    (1 # 3 <= confidence result)%Q /\
    (0 < confidence result)%Q /\
    Forall (fun item => score item <= confidence result)%Q (sentiment result).
Proof.
  destruct (analyzeSentiment_delivers inputText now)
    as (normalized & top & rest & N & L & S & A).
  destruct (normalized_unit _ _ N) as (U & T).
  pose proof (sort_perm normalized) as P.
  pose proof (sort_sorted normalized) as D.
  rewrite S in P, D.
  apply total_perm in P. rewrite T in P.
  eexists. split; [exact A |]. cbn [sentiment confidence].
  apply StronglySorted_inv in D. destruct D as [_ D].
  assert (M : Forall (fun item => score item <= score top)%Q (top :: rest)).
  { constructor; [lra | exact D]. }
  assert (B : (1 # 3 <= score top)%Q).
  { pose proof (Permutation_length (sort_perm normalized)) as Len.
    rewrite S, <- (length_map label normalized), L in Len.
    destruct rest as [| b [| c [| d rest]]]; try discriminate Len.
    rewrite !total_cons in P. unfold total in P. cbn [fold_left] in P.
    inversion D as [| ? ? Hb D']; subst. inversion D' as [| ? ? Hc _]; subst.
    unfold descending in *. lra. }
  repeat split; [exact B | lra | exact M].
Qed.

(** ** The steps of the pass, one by one *)

Lemma includes_cons (w : string) (c : ascii) (t : string) :
  includes w (String c t) = false ->
  prefix w (String c t) = false /\ includes w t = false.
Proof.
  cbn [includes]. intro H. now apply orb_false_iff in H.
Qed.

(** A word that does not occur is matched nowhere. *)
Lemma countFrom_absent (w t : string) :
  includes w t = false -> forall skip, countFrom w t skip = 0%nat.
Proof.
  induction t as [| c t IH]; intros H skip; [reflexivity |].
  apply includes_cons in H. destruct H as [Hp Hi].
  cbn [countFrom]. destruct skip as [| k]; [| now apply IH].
  rewrite Hp. now apply IH.
Qed.

Lemma countMatches_absent (w t : string) :
  includes w t = false -> countMatches w t = 0%nat.
Proof. intro H. unfold countMatches. now apply countFrom_absent. Qed.

Lemma countWords_absent (words : list string) (lowered : string) (start : Q) :
  (forall w, In w words -> includes w lowered = false) ->
  countWords words lowered start
  = fold_left (fun acc _ => (acc + ofNat 0)%Q) words start.
Proof.
  unfold countWords. revert start.
  induction words as [| w ws IH]; intros start H; [reflexivity |].
  cbn [fold_left].
  rewrite (countMatches_absent w lowered) by (apply H; now left).
  apply IH. intros w' Hw'. apply H. now right.
Qed.

Lemma phrases_absent (phrases : list string) (lowered : string) (start : Q) :
  (forall p, In p phrases -> includes p lowered = false) ->
  fold_left (fun acc phrase =>
               if includes phrase lowered then (acc + 3)%Q else acc)
            phrases start
  = start.
Proof.
  revert start.
  induction phrases as [| p ps IH]; intros start H; [reflexivity |].
  cbn [fold_left]. rewrite (H p) by now left.
  apply IH. intros p' Hp'. apply H. now right.
Qed.

Lemma signalFree_spec (lowered : string) :
  signalFree lowered = true ->
  forall w,
    In w (positiveWords ++ negativeWords ++ neutralWords
          ++ strongNegativePhrases) ->
    includes w lowered = false.
Proof.
  unfold signalFree. rewrite forallb_forall. intros H w Hw.
  apply negb_true_iff. now apply H.
Qed.

Lemma signalFree_before (inputText : string) :
  signalFree (toLowerCase inputText) = true ->
  scoresBeforeExclamations inputText
  = {| positiveScore := 0; negativeScore := 0; neutralScore := 0 |}.
Proof.
  intro H. pose proof (signalFree_spec _ H) as A.
  unfold scoresBeforeExclamations, addStrongPhrases, wordScores.
  cbn [positiveScore negativeScore neutralScore].
  rewrite !countWords_absent, phrases_absent; [reflexivity | | | |];
    intros w Hw; apply A; rewrite !in_app_iff; tauto.
Qed.

(** C4.  For every input text in whose lower-cased form no word of the
    positive, negative or neutral list and no strong-negative phrase occurs
    as a substring, the three raw scores are zero up to and including the
    exclamation step, the base-score step sets neutralScore to 1, and the
    result classifies as NEUTRAL: NEUTRAL ranks first with score 1, which
    is the confidence. *)
Theorem C4_zero_signal_neutral (inputText : string) (now : Z) :
  signalFree (toLowerCase inputText) = true ->
  scoresAfterExclamations inputText
  = {| positiveScore := 0; negativeScore := 0; neutralScore := 0 |} /\
  rawScores inputText
  = {| positiveScore := 0; negativeScore := 0; neutralScore := 1 |} /\
  exists result,
    analyzeSentiment inputText now = Some result /\
    ranking (sentiment result)
    = [("NEUTRAL", 1); ("POSITIVE", 0); ("NEGATIVE", 0)]%Q /\
    confidence result = 1%Q.
Proof.
  intro H. pose proof (signalFree_before _ H) as B.
  assert (E : scoresAfterExclamations inputText
              = {| positiveScore := 0; negativeScore := 0;
                   neutralScore := 0 |}).
  { unfold scoresAfterExclamations. rewrite B. unfold addExclamations.
    destruct (0 <? _)%nat; reflexivity. }
  assert (R : rawScores inputText
              = {| positiveScore := 0; negativeScore := 0;
                   neutralScore := 1 |}).
  { unfold rawScores. rewrite E. reflexivity. }
  split; [exact E |]. split; [exact R |].
  unfold analyzeSentiment. rewrite R.
  eexists. split; [reflexivity |]. split; reflexivity.
Qed.

Lemma C4_zero_signal_neutral_witness :
  signalFree (toLowerCase "The train leaves at NOON!") = true /\
  (scoresAfterExclamations "The train leaves at NOON!"
   = {| positiveScore := 0; negativeScore := 0; neutralScore := 0 |} /\
   rawScores "The train leaves at NOON!"
   = {| positiveScore := 0; negativeScore := 0; neutralScore := 1 |} /\
   exists result,
     analyzeSentiment "The train leaves at NOON!" 0 = Some result /\
     ranking (sentiment result)
     = [("NEUTRAL", 1); ("POSITIVE", 0); ("NEGATIVE", 0)]%Q /\
     confidence result = 1%Q).
Proof.
  split; [reflexivity |].
  apply (C4_zero_signal_neutral "The train leaves at NOON!" 0). reflexivity.
Defined.

(** C5.  For every input text whose neutralScore is zero when the sentiment
    array is created (so that positiveScore or negativeScore is nonzero),
    the NEUTRAL entry enters the array with the score 0.1 exactly, the
    divisor is positiveScore + negativeScore + 0.1, and the three scores are
    divided by that sum. *)
Theorem C5_neutral_floor (inputText : string) :
  let s := rawScores inputText in
  let t := total (sentimentArray s) in
  (neutralScore s == 0)%Q ->
  (~ positiveScore s == 0 \/ ~ negativeScore s == 0)%Q /\
  sentimentArray s
  = [ {| label := "POSITIVE"; score := positiveScore s |};
      {| label := "NEGATIVE"; score := negativeScore s |};
      {| label := "NEUTRAL"; score := 1 # 10 |} ] /\
  (t == positiveScore s + negativeScore s + (1 # 10))%Q /\
  normalize (sentimentArray s)
  = Some [ {| label := "POSITIVE"; score := (positiveScore s / t)%Q |};
           {| label := "NEGATIVE"; score := (negativeScore s / t)%Q |};
           {| label := "NEUTRAL"; score := ((1 # 10) / t)%Q |} ].
Proof.
  intros s t Hu.
  pose proof (rawScores_signal inputText) as Sig. cbv zeta in Sig. fold s in Sig.
  pose proof (normalize_rawScores inputText) as N. cbv zeta in N. fold s t in N.
  pose proof (total_sentimentArray s) as T. fold t in T.
  assert (F : neutralEntry s = (1 # 10)%Q).
  { unfold neutralEntry. apply isZero_true in Hu. now rewrite Hu. }
  rewrite F in N, T.
  split; [| split; [| split; [exact T | exact N]]].
  - destruct (Qeq_dec (positiveScore s) 0) as [Hp | Hp]; [| now left].
    right. intro Hn. apply Sig. tauto.
  - unfold sentimentArray. fold (neutralEntry s). now rewrite F.
Qed.

Lemma C5_neutral_floor_witness :
  (neutralScore (rawScores "Good, good!") == 0)%Q /\
  ((~ positiveScore (rawScores "Good, good!") == 0
    \/ ~ negativeScore (rawScores "Good, good!") == 0)%Q /\
   sentimentArray (rawScores "Good, good!")
   = [ {| label := "POSITIVE";
          score := positiveScore (rawScores "Good, good!") |};
       {| label := "NEGATIVE";
          score := negativeScore (rawScores "Good, good!") |};
       {| label := "NEUTRAL"; score := 1 # 10 |} ] /\
   (total (sentimentArray (rawScores "Good, good!"))
    == positiveScore (rawScores "Good, good!")
       + negativeScore (rawScores "Good, good!") + (1 # 10))%Q /\
   normalize (sentimentArray (rawScores "Good, good!"))
   = Some [ {| label := "POSITIVE";
               score := (positiveScore (rawScores "Good, good!")
                         / total (sentimentArray (rawScores "Good, good!")))%Q |};
            {| label := "NEGATIVE";
               score := (negativeScore (rawScores "Good, good!")
                         / total (sentimentArray (rawScores "Good, good!")))%Q |};
            {| label := "NEUTRAL";
               score := ((1 # 10)
                         / total (sentimentArray (rawScores "Good, good!")))%Q |} ]).
Proof.
  split; [reflexivity |].
  apply (C5_neutral_floor "Good, good!"). reflexivity.
Defined.

(** C6.  For every input text, with [e] the number of exclamation marks: if
    [e] is 0 the scores are left as they are; if [e > 0] then [e * 0.5] is
    added to positiveScore when positiveScore > negativeScore, to
    negativeScore when negativeScore > positiveScore, and to neither when
    the two are equal. *)
Theorem C6_exclamation_adjustment (inputText : string) :
  let e := countExclamations (toLowerCase inputText) in
  let s := scoresBeforeExclamations inputText in
  let s' := scoresAfterExclamations inputText in
  (e = 0%nat -> s' = s) /\
  ((0 < e)%nat -> (negativeScore s < positiveScore s)%Q ->
   s' = {| positiveScore := (positiveScore s + ofNat e * (1 # 2))%Q;
           negativeScore := negativeScore s;
           neutralScore := neutralScore s |}) /\
  ((0 < e)%nat -> (positiveScore s < negativeScore s)%Q ->
   s' = {| positiveScore := positiveScore s;
           negativeScore := (negativeScore s + ofNat e * (1 # 2))%Q;
           neutralScore := neutralScore s |}) /\
  ((0 < e)%nat -> (positiveScore s == negativeScore s)%Q -> s' = s).
Proof.
  intros e s s'. subst s'. unfold scoresAfterExclamations. fold e s.
  unfold addExclamations.
  repeat split.
  - intros ->. reflexivity.
  - intros He Hlt. apply Nat.ltb_lt in He. rewrite He.
    assert (G1 : gt (negativeScore s) (positiveScore s) = false)
      by (apply gt_false; lra).
    assert (G2 : gt (positiveScore s) (negativeScore s) = true)
      by (now apply gt_true).
    now rewrite G1, G2.
  - intros He Hlt. apply Nat.ltb_lt in He. rewrite He.
    assert (G1 : gt (negativeScore s) (positiveScore s) = true)
      by (now apply gt_true).
    now rewrite G1.
  - intros He Heq. apply Nat.ltb_lt in He. rewrite He.
    assert (G1 : gt (negativeScore s) (positiveScore s) = false)
      by (apply gt_false; lra).
    assert (G2 : gt (positiveScore s) (negativeScore s) = false)
      by (apply gt_false; lra).
    now rewrite G1, G2.
Qed.

(** The adjustment at work: two marks, positive ahead of negative. *)
Lemma C6_exclamation_adjustment_witness :
  scoresAfterExclamations "Best day, bad coffee, great people!!"
  = {| positiveScore :=
         (positiveScore
            (scoresBeforeExclamations "Best day, bad coffee, great people!!")
          + ofNat 2 * (1 # 2))%Q;
       negativeScore :=
         negativeScore
           (scoresBeforeExclamations "Best day, bad coffee, great people!!");
       neutralScore :=
         neutralScore
           (scoresBeforeExclamations "Best day, bad coffee, great people!!") |}.
Proof.
  apply (C6_exclamation_adjustment "Best day, bad coffee, great people!!").
  - vm_compute. lia.
  - vm_compute. reflexivity.
Defined.

(** ** Keyword extraction *)

Section KeywordFacts.

Lemma includes_later (p : string) (c : ascii) (s : string) :
  includes p s = true -> includes p (String c s) = true.
Proof. intro H. cbn [includes]. rewrite H. apply orb_true_r. Qed.

Lemma includes_empty (s : string) : includes EmptyString s = true.
Proof. destruct s; reflexivity. Qed.

(** The first piece of a split is a run of word characters at the front. *)
Lemma split_head (s : string) :
  exists piece pieces,
    split s = piece :: pieces /\
    prefix piece s = true /\ allWordChars piece = true.
Proof.
  induction s as [| c s IH].
  - now exists EmptyString, [].
  - destruct IH as (piece & pieces & E & P & W). cbn [split].
    destruct (isWordChar c) eqn:Wc.
    + rewrite E. exists (String c piece), pieces.
      split; [reflexivity |]. split.
      * cbn [prefix]. now destruct (ascii_dec c c).
      * cbn [allWordChars]. now rewrite Wc.
    + destruct s as [| c' s'].
      * now exists EmptyString, [EmptyString].
      * destruct (isWordChar c') eqn:Wc'.
        -- now exists EmptyString, (split (String c' s')).
        -- rewrite E. exists piece, pieces. split; [reflexivity |].
           destruct piece as [| a piece']; [now split |].
           cbn [prefix] in P. cbn [allWordChars] in W.
           destruct (ascii_dec a c') as [-> |]; [| discriminate P].
           rewrite Wc' in W. discriminate W.
Qed.

(** Every piece is made of word characters and occurs in the string. *)
Lemma split_pieces (s : string) :
  Forall (fun p => allWordChars p = true /\ includes p s = true) (split s).
Proof.
  induction s as [| c s IH].
  - repeat constructor.
  - assert (L : Forall (fun p => allWordChars p = true
                                 /\ includes p (String c s) = true) (split s)).
    { eapply Forall_impl; [| exact IH].
      intros p [Hw Hi]. split; [exact Hw | now apply includes_later]. }
    destruct (split_head s) as (piece & pieces & E & P & W).
    cbn [split]. destruct (isWordChar c) eqn:Wc.
    + rewrite E in *. inversion L as [| ? ? _ Ltail]; subst.
      constructor; [| exact Ltail]. split.
      * cbn [allWordChars]. now rewrite Wc.
      * cbn [includes prefix]. destruct (ascii_dec c c); [| congruence].
        now rewrite P.
    + destruct s as [| c' s'].
      * repeat constructor.
      * destruct (isWordChar c'); [| exact L].
        constructor; [| exact L]. split; [reflexivity | apply includes_empty].
Qed.

Lemma filter_twice (A : Type) (f g : A -> bool) (l : list A) :
  filter g (filter f l) = filter (fun x => f x && g x) l.
Proof.
  induction l as [| x l IH]; [reflexivity |].
  cbn [filter]. destruct (f x); cbn [filter andb]; now rewrite IH.
Qed.

Lemma In_firstn (A : Type) (n : nat) (x : A) (l : list A) :
  In x (firstn n l) -> In x l.
Proof.
  intro H. rewrite <- (firstn_skipn n l). apply in_or_app. now left.
Qed.

Lemma mem_false (w : string) (arr : list string) :
  mem w arr = false -> ~ In w arr.
Proof.
  unfold mem. intros H Hin.
  assert (existsb (String.eqb w) arr = true) as T.
  { apply existsb_exists. exists w. split; [exact Hin | apply String.eqb_refl]. }
  congruence.
Qed.

End KeywordFacts.

(** *** The code against the specification *)

Section KeywordRefinement.

Lemma lowerChar_idempotent (c : ascii) : lowerChar (lowerChar c) = lowerChar c.
Proof. destruct c as [[] [] [] [] [] [] [] []]; reflexivity. Qed.

Lemma lowerChar_spec (c : ascii) : lowerChar c = KeywordSpec.lowerLetter c.
Proof. destruct c as [[] [] [] [] [] [] [] []]; reflexivity. Qed.

Lemma isWordChar_spec (c : ascii) : isWordChar c = KeywordSpec.wordCharacter c.
Proof. destruct c as [[] [] [] [] [] [] [] []]; reflexivity. Qed.

Lemma toLowerCase_spec (s : string) : toLowerCase s = KeywordSpec.lowerCased s.
Proof.
  induction s as [| c s IH]; [reflexivity |].
  cbn [toLowerCase KeywordSpec.lowerCased]. now rewrite lowerChar_spec, IH.
Qed.

(** A lower-cased word character is a small letter, a digit or the
    underscore. *)
Lemma lowered_wordChar (c : ascii) :
  isWordChar c = true -> lowerChar c = c ->
  KeywordSpec.keywordCharacter c = true.
Proof.
  destruct c as [[] [] [] [] [] [] [] []]; intros W L;
    first [reflexivity | discriminate W | discriminate L].
Qed.

Lemma append_empty (s : string) : (s ++ EmptyString)%string = s.
Proof. induction s as [| c s IH]; [reflexivity |]. cbn. now rewrite IH. Qed.

Lemma append_snoc (a b : string) (c : ascii) :
  ((a ++ String c EmptyString) ++ b)%string = (a ++ String c b)%string.
Proof. induction a as [| d a IH]; [reflexivity |]. cbn. now rewrite IH. Qed.

(** Where a run of separators begins, the piece in front is empty. *)
Lemma split_after_separator (c : ascii) (s : string) :
  isWordChar c = false ->
  exists pieces, split (String c s) = EmptyString :: pieces.
Proof.
  intro Wc.
  destruct (split_head (String c s)) as (piece & pieces & E & P & W).
  exists pieces. rewrite E. f_equal.
  destruct piece as [| a piece']; [reflexivity |].
  cbn [prefix] in P. cbn [allWordChars] in W.
  destruct (ascii_dec a c) as [-> |]; [| discriminate P].
  rewrite Wc in W. discriminate W.
Qed.

(** The pass from left to right gives the non-empty pieces of [split], the
    characters collected so far in front of the first. *)
Lemma tokensFrom_split (s current : string) :
  exists piece pieces,
    split s = piece :: pieces /\
    KeywordSpec.tokensFrom s current
    = filter KeywordSpec.nonEmpty ((current ++ piece)%string :: pieces).
Proof.
  revert current. induction s as [| c s IH]; intro current.
  - exists EmptyString, []. split; [reflexivity |].
    cbn [KeywordSpec.tokensFrom filter]. rewrite append_empty.
    destruct (KeywordSpec.nonEmpty current); reflexivity.
  - cbn [KeywordSpec.tokensFrom split]. rewrite <- isWordChar_spec.
    destruct (isWordChar c) eqn:Wc.
    + destruct (IH (current ++ String c EmptyString)%string)
        as (piece & pieces & E & T).
      rewrite E. exists (String c piece), pieces. split; [reflexivity |].
      rewrite T, append_snoc. reflexivity.
    + destruct (IH EmptyString) as (piece & pieces & E & T).
      rewrite T. cbn [append].
      destruct s as [| c' s'].
      * cbn in E. injection E as <- <-.
        exists EmptyString, [EmptyString]. split; [reflexivity |].
        rewrite append_empty. cbn [filter KeywordSpec.nonEmpty].
        destruct (KeywordSpec.nonEmpty current); reflexivity.
      * destruct (isWordChar c') eqn:Wc'.
        -- exists EmptyString, (split (String c' s')).
           split; [reflexivity |].
           rewrite append_empty, E. cbn [filter].
           destruct (KeywordSpec.nonEmpty current); reflexivity.
        -- destruct (split_after_separator c' s' Wc') as (rest & R).
           rewrite E in R. injection R as -> ->.
           exists EmptyString, rest. split; [exact E |].
           rewrite append_empty. cbn [filter KeywordSpec.nonEmpty].
           destruct (KeywordSpec.nonEmpty current); reflexivity.
Qed.

Lemma tokens_split (s : string) :
  KeywordSpec.tokens s = filter KeywordSpec.nonEmpty (split s).
Proof.
  unfold KeywordSpec.tokens.
  destruct (tokensFrom_split s EmptyString) as (piece & pieces & E & T).
  rewrite T, E. reflexivity.
Qed.

Lemma survives_isKeyword (w : string) :
  KeywordSpec.survives w = isKeyword w.
Proof. reflexivity. Qed.

Lemma filter_survivors (l : list string) :
  filter KeywordSpec.survives (filter KeywordSpec.nonEmpty l)
  = filter isKeyword l.
Proof.
  rewrite filter_twice. apply filter_ext. intro w.
  rewrite survives_isKeyword.
  destruct w as [| c w]; [reflexivity |]. reflexivity.
Qed.

Lemma prefix_madeOf (p : ascii -> bool) (w s : string) :
  prefix w s = true ->
  KeywordSpec.madeOf p s = true -> KeywordSpec.madeOf p w = true.
Proof.
  revert s. induction w as [| a w IH]; intros s P M; [reflexivity |].
  destruct s as [| b s]; [discriminate P |].
  cbn [prefix] in P. destruct (ascii_dec a b) as [-> |]; [| discriminate P].
  cbn [KeywordSpec.madeOf] in *. apply andb_true_iff in M.
  destruct M as [Mb Ms]. rewrite Mb. cbn [andb]. now apply (IH s).
Qed.

Lemma includes_madeOf (p : ascii -> bool) (w s : string) :
  includes w s = true ->
  KeywordSpec.madeOf p s = true -> KeywordSpec.madeOf p w = true.
Proof.
  induction s as [| c s IH]; intros I M.
  - destruct w; [reflexivity | discriminate I].
  - cbn [includes] in I. apply orb_true_iff in I. destruct I as [P | I].
    + now apply (prefix_madeOf p w (String c s)).
    + cbn [KeywordSpec.madeOf] in M. apply andb_true_iff in M.
      apply IH; [exact I | apply M].
Qed.

Lemma lowered_fixed (s : string) :
  KeywordSpec.madeOf (fun c => Ascii.eqb (lowerChar c) c) (toLowerCase s)
  = true.
Proof.
  induction s as [| c s IH]; [reflexivity |].
  cbn [toLowerCase KeywordSpec.madeOf].
  rewrite lowerChar_idempotent, Ascii.eqb_refl. exact IH.
Qed.

Lemma keyword_characters (w : string) :
  allWordChars w = true ->
  KeywordSpec.madeOf (fun c => Ascii.eqb (lowerChar c) c) w = true ->
  KeywordSpec.madeOf KeywordSpec.keywordCharacter w = true.
Proof.
  induction w as [| c w IH]; [reflexivity |].
  cbn [allWordChars KeywordSpec.madeOf]. intros W L.
  apply andb_true_iff in W. destruct W as [Wc Ww].
  apply andb_true_iff in L. destruct L as [Lc Lw].
  apply Ascii.eqb_eq in Lc.
  rewrite (lowered_wordChar c Wc Lc). cbn [andb]. now apply IH.
Qed.

End KeywordRefinement.

(** C7.  For every input text, extractKeywords lower-cases the text, splits
    it at the runs of non-word characters, keeps the tokens longer than 3
    characters that are not in the fixed list of 12 stop words, and returns
    the first at most 5 of them in their original order.

    The code agrees with the specification's own description
    ([KeywordSpec.specKeywords]: capitals looked up in the alphabet, tokens
    collected by one pass from left to right, the stop words written out).
    Each keyword returned is longer than 3, is no stop word, is made of
    small letters, digits and underscores only, and occurs in the
    lower-cased text.  The example of the specification comes out with its
    stop word and its short words dropped. *)
Theorem C7_extractKeywords (inputText : string) :
  let tokens := split (toLowerCase inputText) in
  extractKeywords inputText = KeywordSpec.specKeywords inputText /\
  extractKeywords inputText = firstn 5 (filter isKeyword tokens) /\
  List.length commonWords = 12%nat /\
  (List.length (extractKeywords inputText) <= 5)%nat /\
  Forall (fun word =>
            (3 < String.length word)%nat /\
            ~ In word commonWords /\
            allWordChars word = true /\
            KeywordSpec.madeOf KeywordSpec.keywordCharacter word = true /\
            includes word (toLowerCase inputText) = true)
         (extractKeywords inputText) /\
  extractKeywords "That wonderful movie was truly fantastic and memorable"
  = ["wonderful"; "movie"; "truly"; "fantastic"; "memorable"].
Proof.
  intro tokens.
  assert (E : extractKeywords inputText = firstn 5 (filter isKeyword tokens)).
  { unfold extractKeywords. fold tokens. now rewrite filter_twice. }
  split; [| split; [exact E |]].
  { rewrite E. unfold KeywordSpec.specKeywords.
    rewrite <- toLowerCase_spec, tokens_split, filter_survivors.
    reflexivity. }
  split; [reflexivity |].
  split; [rewrite E; apply firstn_le_length |].
  split; [| reflexivity].
  rewrite E. apply Forall_forall. intros word Hin.
  apply In_firstn, filter_In in Hin. destruct Hin as [Hin K].
  unfold isKeyword in K. apply andb_true_iff in K. destruct K as [K1 K2].
  apply Nat.ltb_lt in K1. apply negb_true_iff, mem_false in K2.
  pose proof (split_pieces (toLowerCase inputText)) as Pc.
  rewrite Forall_forall in Pc. destruct (Pc word Hin) as [W I].
  repeat split; try assumption.
  apply keyword_characters; [exact W |].
  apply (includes_madeOf _ word (toLowerCase inputText) I).
  apply lowered_fixed.
Qed.

Example extractKeywords_stopwords :
  extractKeywords "They SHOULD have been there; this is a WELL-known, over-long list of words"
  = ["well"; "known"; "over"; "long"; "list"].
Proof. reflexivity. Qed.

(** ** The session list of recent results *)

Lemma handleAnalyze_results (now : Z) (st : Dashboard.State) :
  isBlank (Dashboard.text st) = false ->
  exists result,
    analyzeSentiment (Dashboard.text st) now = Some result /\
    Dashboard.results (Dashboard.handleAnalyze now st)
    = result :: firstn 9 (Dashboard.results st).
Proof.
  intro B. unfold Dashboard.handleAnalyze. rewrite B.
  destruct (analyzeSentiment_delivers (Dashboard.text st) now)
    as (normalized & top & rest & _ & _ & _ & A).
  rewrite A. eexists. split; reflexivity.
Qed.

Lemma step_bounded (st : Dashboard.State) (ev : Dashboard.Event) :
  (List.length (Dashboard.results st) <= 10)%nat ->
  (List.length (Dashboard.results (Dashboard.step st ev)) <= 10)%nat.
Proof.
  intro H. destruct ev as [now | | value | content name]; cbn; try lia.
  destruct (isBlank (Dashboard.text st)) eqn:B.
  - unfold Dashboard.handleAnalyze. now rewrite B.
  - destruct (handleAnalyze_results now st B) as (result & _ & ->).
    cbn [List.length]. rewrite length_firstn. lia.
Qed.

Lemma run_bounded (evs : list Dashboard.Event) (st : Dashboard.State) :
  (List.length (Dashboard.results st) <= 10)%nat ->
  (List.length (Dashboard.results (Dashboard.run evs st)) <= 10)%nat.
Proof.
  unfold Dashboard.run. revert st.
  induction evs as [| ev evs IH]; intros st H; [exact H |].
  cbn [fold_left]. now apply IH, step_bounded.
Qed.

(** C9.  The session list of recent results never holds more than 10
    entries.  An analysis step (handleAnalyze on a text that is not blank)
    takes a list of length n to one of length min(n+1, 10), the new result
    in front of the first 9 old ones; a reset empties the list; every state
    update keeps the bound, and so does every run from the initial state. *)
Theorem C9_results_bounded :
  (forall st now,
      isBlank (Dashboard.text st) = false ->
      List.length (Dashboard.results (Dashboard.handleAnalyze now st))
      = Nat.min (List.length (Dashboard.results st) + 1) 10 /\
      exists result,
        Dashboard.results (Dashboard.handleAnalyze now st)
        = result :: firstn 9 (Dashboard.results st)) /\
  (forall st, Dashboard.results (Dashboard.handleNewAnalysis st) = []) /\
  (forall st ev,
      (List.length (Dashboard.results st) <= 10)%nat ->
      (List.length (Dashboard.results (Dashboard.step st ev)) <= 10)%nat) /\
  (forall evs,
      (List.length (Dashboard.results (Dashboard.run evs Dashboard.initial))
       <= 10)%nat).
Proof.
  split; [| split; [| split]].
  - intros st now B.
    destruct (handleAnalyze_results now st B) as (result & _ & E).
    split; [| now exists result].
    rewrite E. cbn [List.length]. rewrite length_firstn. lia.
  - reflexivity.
  - apply step_bounded.
  - intro evs. apply run_bounded. cbn. lia.
Qed.

(** Eleven analyses in a row leave ten results; the twelfth keeps ten. *)
Lemma C9_results_bounded_witness :
  let st :=
    Dashboard.run
      (Dashboard.SetText "so good" :: repeat (Dashboard.Analyze 0) 11)
      Dashboard.initial in
  isBlank (Dashboard.text st) = false /\
  List.length (Dashboard.results st) = 10%nat /\
  List.length (Dashboard.results (Dashboard.handleAnalyze 1 st)) = 10%nat.
Proof.
  intro st.
  assert (B : isBlank (Dashboard.text st) = false) by reflexivity.
  assert (L : List.length (Dashboard.results st) = 10%nat) by reflexivity.
  split; [exact B |]. split; [exact L |].
  destruct (proj1 C9_results_bounded st 1%Z B) as [E _].
  rewrite E, L. reflexivity.
Defined.

(** ** CSV export *)

Section ExportFacts.

Import ExportResults.

Variable toISOString : Z -> string.

Lemma csvRows_rows (data : list AnalysisResult) :
  Forall (fun result => sentiment result <> []) data ->
  exists rows,
    csvRows toISOString data = Some rows /\
    Forall2 (fun result row =>
               exists top rest,
                 sentiment result = top :: rest /\
                 row = join "," (rowFields toISOString top result))
            data rows.
Proof.
  induction 1 as [| result rest Hr _ IH].
  - exists []. split; [reflexivity | constructor].
  - destruct IH as (rows & E & F).
    cbn [csvRows]. unfold csvRow.
    destruct (sentiment result) as [| top others] eqn:S; [congruence |].
    rewrite E. eexists. split; [reflexivity |].
    constructor; [| exact F]. now exists top, others.
Qed.

End ExportFacts.

(** C2, as amended.  The exporter writes the current result alone when one
    is set, and the sequence of results otherwise.  When there is nothing to
    export (no current result, empty sequence) no CSV is produced.  When
    there is data, each result having a first sentiment, the CSV is the
    header row followed by one row per exported result, joined by line
    feeds; a row holds, separated by commas, the timestamp, the quoted text
    with its quotes doubled, the label of the first sentiment, the
    confidence in percent, the POSITIVE, NEGATIVE and NEUTRAL percentages
    and the quoted keyword list. *)
Theorem C2_csv_header_and_rows (toISOString : Z -> string)
  (results : list AnalysisResult) (currentResult : option AnalysisResult) :
  let data :=
    match currentResult with
    | Some current => [current]
    | None => results
    end in
  (data = [] ->
   ExportResults.exportToCSV toISOString results currentResult
   = ExportResults.NothingToExport) /\
  (data <> [] ->
   Forall (fun result => sentiment result <> []) data ->
   exists rows,
     ExportResults.exportToCSV toISOString results currentResult
     = ExportResults.Downloaded
         (join ExportResults.newline
            ("Timestamp,Text,Primary Sentiment,Confidence,Positive %,Negative %,Neutral %,Keywords"
             :: rows)) /\
     List.length rows = List.length data /\
     Forall2
       (fun result row =>
          exists top rest,
            sentiment result = top :: rest /\
            row = join ","
                    [ toISOString (timestamp result);
                      ExportResults.quoted (escapeQuotes (text result));
                      label top;
                      ExportResults.percent (confidence result);
                      ExportResults.percent
                        (ExportResults.scoreOf "POSITIVE" result);
                      ExportResults.percent
                        (ExportResults.scoreOf "NEGATIVE" result);
                      ExportResults.percent
                        (ExportResults.scoreOf "NEUTRAL" result);
                      ExportResults.quoted (join ", " (keywords result)) ])
       data rows).
Proof.
  intro data. split.
  - subst data. destruct currentResult as [current |]; [discriminate |].
    intros ->. reflexivity.
  - intros Hne Hs.
    destruct (csvRows_rows toISOString data Hs) as (rows & E & F).
    exists rows. split; [| split; [| exact F]].
    + unfold ExportResults.exportToCSV, ExportResults.csvLines,
        ExportResults.dataToExport.
      fold data. rewrite E.
      destruct currentResult as [current |]; [reflexivity |].
      subst data. destruct results; [congruence | reflexivity].
    + symmetry. eapply Forall2_length. exact F.
Qed.

(** C2, as stated, fails.  Two analyses in the dashboard, then an export: the list holds two
    results, the current result is set, and the CSV has the header row and
    one row, not two.  With nothing to export there is no CSV at all. *)
Lemma C2_counterexample :
  let st :=
    Dashboard.run
      [Dashboard.SetText "good"; Dashboard.Analyze 0;
       Dashboard.SetText "bad"; Dashboard.Analyze 1]
      Dashboard.initial in
  let toISOString := fun ms : Z => toString ms in
  List.length (Dashboard.results st) = 2%nat /\
  ~ (exists rows,
        ExportResults.csvLines toISOString (Dashboard.results st)
                               (Dashboard.currentResult st)
        = Some (join "," ExportResults.headers :: rows) /\
        List.length rows = List.length (Dashboard.results st)) /\
  ~ (exists rows,
        ExportResults.exportToCSV toISOString [] None
        = ExportResults.Downloaded
            (join ExportResults.newline
                  (join "," ExportResults.headers :: rows))).
Proof.
  intros st toISOString.
  split; [reflexivity |]. split.
  - intros (rows & E & L).
    vm_compute in E, L. injection E as <-. discriminate L.
  - intros (rows & E). discriminate E.
Qed.

Lemma C2_csv_header_and_rows_witness :
  let st :=
    Dashboard.run
      [Dashboard.SetText "good"; Dashboard.Analyze 0;
       Dashboard.SetText "bad"; Dashboard.Analyze 1]
      Dashboard.initial in
  exists rows,
    ExportResults.exportToCSV toString (Dashboard.results st)
                              (Dashboard.currentResult st)
    = ExportResults.Downloaded
        (join ExportResults.newline
           ("Timestamp,Text,Primary Sentiment,Confidence,Positive %,Negative %,Neutral %,Keywords"
            :: rows)) /\
    List.length rows = 1%nat.
Proof.
  intro st.
  destruct (proj2 (C2_csv_header_and_rows toString (Dashboard.results st)
                     (Dashboard.currentResult st)))
    as (rows & E & L & _).
  - vm_compute. discriminate.
  - vm_compute. constructor; [discriminate | constructor].
  - exists rows. split; [exact E | exact L].
Defined.

Example exportToCSV_ex :
  ExportResults.exportToCSV toString []
    (analyzeSentiment "Good" 1700000000000)
  = ExportResults.Downloaded
      ("Timestamp,Text,Primary Sentiment,Confidence,Positive %,Negative %,Neutral %,Keywords"
       ++ ExportResults.newline
       ++ "1700000000000," ++ ExportResults.dquote ++ "Good"
       ++ ExportResults.dquote ++ ",POSITIVE,91%,91%,0%,9%,"
       ++ ExportResults.dquote ++ "good" ++ ExportResults.dquote).
Proof. vm_compute. reflexivity. Qed.

(** * Further properties of the code *)

(** ** Matching *)

Lemma prefix_length (w t : string) :
  prefix w t = true -> (String.length w <= String.length t)%nat.
Proof.
  revert t. induction w as [| a w IH]; intros t H; cbn; [lia |].
  destruct t as [| b t]; [discriminate H |].
  cbn in H. destruct (ascii_dec a b); [| discriminate H].
  apply IH in H. cbn. lia.
Qed.

Lemma countFrom_present (w t : string) :
  w <> EmptyString -> includes w t = true -> (0 < countFrom w t 0)%nat.
Proof.
  intro Hw. induction t as [| c t IH]; intro H.
  - destruct w; [congruence | discriminate H].
  - cbn [includes] in H. cbn [countFrom].
    destruct (prefix w (String c t)); [lia |].
    cbn [orb] in H. now apply IH.
Qed.

Lemma countFrom_room (w t : string) (skip : nat) :
  w <> EmptyString ->
  (skip <= String.length t)%nat ->
  (countFrom w t skip * String.length w + skip <= String.length t)%nat.
Proof.
  intro Hw. assert (L : (0 < String.length w)%nat).
  { destruct w; [congruence | cbn; lia]. }
  revert skip. induction t as [| c t IH]; intros skip Hs.
  - cbn in *. lia.
  - cbn [countFrom]. destruct skip as [| k].
    + destruct (prefix w (String c t)) eqn:P.
      * apply prefix_length in P. cbn [String.length] in *.
        specialize (IH (String.length w - 1)%nat ltac:(lia)). nia.
      * specialize (IH 0%nat ltac:(lia)). cbn [String.length]. lia.
    + cbn [String.length] in *. specialize (IH k ltac:(lia)). lia.
Qed.

(** X1.  The number of matches of a non-empty word is nonzero exactly when
    the word occurs in the text: the count of the scorer and the presence
    test of the explanation card never disagree. *)
Theorem X1_count_positive_iff_includes (word text : string) :
  word <> EmptyString ->
  (0 < countMatches word text)%nat <-> includes word text = true.
Proof.
  intro Hw. split.
  - intro H. destruct (includes word text) eqn:I; [reflexivity |].
    rewrite (countMatches_absent _ _ I) in H. lia.
  - now apply countFrom_present.
Qed.

Lemma X1_count_positive_iff_includes_witness :
  "good" <> EmptyString /\
  ((0 < countMatches "good" "so good, goodness")%nat
   <-> includes "good" "so good, goodness" = true).
Proof.
  split; [discriminate |].
  apply (X1_count_positive_iff_includes "good" "so good, goodness").
  discriminate.
Defined.

(** X2.  Matches do not overlap: the matches of a non-empty word, each as
    long as the word, fit side by side into the text. *)
Theorem X2_matches_fit (word text : string) :
  word <> EmptyString ->
  (countMatches word text * String.length word <= String.length text)%nat.
Proof.
  intro Hw. unfold countMatches.
  pose proof (countFrom_room word text 0 Hw ltac:(lia)). lia.
Qed.

Lemma X2_matches_fit_witness :
  "aa" <> EmptyString /\
  (countMatches "aa" "aaaaa" * String.length "aa"
   <= String.length "aaaaa")%nat.
Proof.
  split; [discriminate |].
  apply (X2_matches_fit "aa" "aaaaa"). discriminate.
Defined.

(** ** Letter case *)

Lemma toLowerCase_idempotent (s : string) :
  toLowerCase (toLowerCase s) = toLowerCase s.
Proof.
  induction s as [| c s IH]; [reflexivity |].
  cbn [toLowerCase]. now rewrite lowerChar_idempotent, IH.
Qed.

Lemma analyzeSentiment_inv (inputText : string) (now : Z)
  (result : AnalysisResult) :
  analyzeSentiment inputText now = Some result ->
  sentiment result = sort (normalizedArray inputText) /\
  keywords result = extractKeywords inputText /\
  text result = inputText /\
  timestamp result = now /\
  exists top rest,
    sentiment result = top :: rest /\ confidence result = score top.
Proof.
  unfold analyzeSentiment.
  pose proof (normalize_rawScores inputText) as N. cbv zeta in N.
  rewrite N. fold (normalizedArray inputText).
  destruct (sort (normalizedArray inputText)) as [| top rest] eqn:S;
    [discriminate |].
  intros [= <-]. cbn [sentiment keywords text timestamp confidence].
  repeat split. exists top, rest. split; reflexivity.
Qed.

Lemma analyzeSentiment_some (inputText : string) (now : Z) :
  exists result, analyzeSentiment inputText now = Some result.
Proof.
  destruct (analyzeSentiment_delivers inputText now)
    as (? & ? & ? & _ & _ & _ & A).
  eexists. exact A.
Qed.

(** X3.  The analysis does not depend on letter case: a text and its
    lower-cased form get the same sentiment array, the same confidence and
    the same keywords. *)
Theorem X3_case_insensitive (inputText : string) (now : Z) :
  exists result lowered,
    analyzeSentiment inputText now = Some result /\
    analyzeSentiment (toLowerCase inputText) now = Some lowered /\
    sentiment lowered = sentiment result /\
    confidence lowered = confidence result /\
    keywords lowered = keywords result.
Proof.
  assert (R : rawScores (toLowerCase inputText) = rawScores inputText).
  { unfold rawScores, scoresAfterExclamations, scoresBeforeExclamations.
    now rewrite toLowerCase_idempotent. }
  assert (K : extractKeywords (toLowerCase inputText)
              = extractKeywords inputText).
  { unfold extractKeywords. now rewrite toLowerCase_idempotent. }
  destruct (analyzeSentiment_some inputText now) as (result & A).
  exists result.
  unfold analyzeSentiment in *. rewrite R, K.
  destruct (normalize (sentimentArray (rawScores inputText))) as [nz |];
    [| discriminate A].
  destruct (sort nz) as [| top rest]; [discriminate A |].
  injection A as <-. eexists. split; [reflexivity |].
  split; [reflexivity |]. cbn. repeat split.
Qed.

(** ** Exclamation marks *)

Lemma addExclamations_lead (e : nat) (s : Scores) :
  neutralScore (addExclamations e s) = neutralScore s /\
  (positiveScore s <= positiveScore (addExclamations e s))%Q /\
  (negativeScore s <= negativeScore (addExclamations e s))%Q /\
  ((positiveScore (addExclamations e s) < negativeScore (addExclamations e s))%Q
   <-> (positiveScore s < negativeScore s)%Q) /\
  ((positiveScore (addExclamations e s) == negativeScore (addExclamations e s))%Q
   <-> (positiveScore s == negativeScore s)%Q).
Proof.
  destruct s as [p n u].
  pose proof (ofNat_nonneg e) as He.
  unfold addExclamations. cbn [positiveScore negativeScore neutralScore].
  assert (G1 := gt_true n p). assert (G1' := gt_false n p).
  assert (G2 := gt_true p n). assert (G2' := gt_false p n).
  destruct (0 <? e)%nat; [destruct (gt n p); [| destruct (gt p n)] |];
    cbn [positiveScore negativeScore neutralScore];
    (split; [reflexivity |]);
    try (assert (p < n)%Q by now apply G1);
    try (assert (n <= p)%Q by now apply G1');
    try (assert (n < p)%Q by now apply G2);
    try (assert (p <= n)%Q by now apply G2');
    (split; [lra |]); (split; [lra |]); split; split; intro; lra.
Qed.

(** X4.  Exclamation marks never change who leads: after the adjustment
    positiveScore is below, equal to or above negativeScore exactly as
    before; neither score decreases and neutralScore is untouched. *)
Theorem X4_exclamations_keep_lead (inputText : string) :
  let s := scoresBeforeExclamations inputText in
  let s' := scoresAfterExclamations inputText in
  neutralScore s' = neutralScore s /\
  (positiveScore s <= positiveScore s')%Q /\
  (negativeScore s <= negativeScore s')%Q /\
  ((positiveScore s' < negativeScore s')%Q
   <-> (positiveScore s < negativeScore s)%Q) /\
  ((positiveScore s' == negativeScore s')%Q
   <-> (positiveScore s == negativeScore s)%Q).
Proof.
  cbv zeta. unfold scoresAfterExclamations. apply addExclamations_lead.
Qed.

(** ** Which label ranks first *)

Lemma div_le (t x y : Q) : (0 < t)%Q -> (x / t <= y / t)%Q <-> (x <= y)%Q.
Proof.
  intro Ht. unfold Qdiv. apply Qmult_le_r. now apply Qinv_lt_0_compat.
Qed.

Lemma div_lt (t x y : Q) : (0 < t)%Q -> (x / t < y / t)%Q <-> (x < y)%Q.
Proof.
  intro Ht. unfold Qdiv. apply Qmult_lt_r. now apply Qinv_lt_0_compat.
Qed.

Ltac decide_tests :=
  repeat match goal with
    | H : true = true <-> ?P |- _ =>
        assert P by (apply H; reflexivity); clear H
    | H : false = true <-> ?P |- _ =>
        assert (~ P) by (let X := fresh in
                         intro X; apply H in X; discriminate X);
        clear H
    end.

(** The first entry of a sorted array of three. *)
Lemma sort_three_top (a b c : SentimentResult) :
  ((score b <= score a)%Q -> (score c <= score a)%Q ->
   exists rest, sort [a; b; c] = a :: rest) /\
  ((score a < score b)%Q -> (score c <= score b)%Q ->
   exists rest, sort [a; b; c] = b :: rest) /\
  ((score a < score c)%Q -> (score b < score c)%Q ->
   exists rest, sort [a; b; c] = c :: rest).
Proof.
  pose proof (compareFn_le b c) as Hbc.
  pose proof (compareFn_le a b) as Hab.
  pose proof (compareFn_le a c) as Hac.
  unfold descending in *. cbn [sort insert].
  destruct (Qle_bool (compareFn b c) 0); cbn [insert];
    destruct (Qle_bool (compareFn a b) 0);
    destruct (Qle_bool (compareFn a c) 0);
    decide_tests; cbn [insert];
    repeat split; intros;
    first [ eexists; reflexivity | exfalso; lra ].
Qed.

(** X5.  The primary label is decided by the scores before normalisation:
    POSITIVE ranks first exactly when positiveScore is at least
    negativeScore and at least the neutral entry; NEGATIVE exactly when
    negativeScore is above positiveScore and at least the neutral entry;
    NEUTRAL exactly when the neutral entry is above both.  The confidence
    is the largest of the three divided by their sum. *)
Theorem X5_primary_label (inputText : string) (now : Z) :
  let p := positiveScore (rawScores inputText) in
  let n := negativeScore (rawScores inputText) in
  let f := neutralEntry (rawScores inputText) in
  exists result,
    analyzeSentiment inputText now = Some result /\
    (primaryLabel result = Some "POSITIVE" <-> (n <= p /\ f <= p)%Q) /\
    (primaryLabel result = Some "NEGATIVE" <-> (p < n /\ f <= n)%Q) /\
    (primaryLabel result = Some "NEUTRAL" <-> (p < f /\ n < f)%Q) /\
    (p <= confidence result * (p + n + f))%Q /\
    (n <= confidence result * (p + n + f))%Q /\
    (f <= confidence result * (p + n + f))%Q /\
    (confidence result * (p + n + f) == p
     \/ confidence result * (p + n + f) == n
     \/ confidence result * (p + n + f) == f)%Q.
Proof.
  intros p n f.
  destruct (analyzeSentiment_some inputText now) as (result & A).
  exists result. split; [exact A |].
  destruct (analyzeSentiment_inv _ _ _ A) as (S & _ & _ & _ & top & rest & E & C).
  pose proof (total_rawScores_pos inputText) as Ht.
  pose proof (total_sentimentArray (rawScores inputText)) as Et.
  fold p n f in Et.
  unfold primaryLabel. rewrite C, E. rewrite S in E. clear S C A.
  unfold normalizedArray in E. cbv zeta in E. fold p n f in E.
  set (t := total (sentimentArray (rawScores inputText))) in *.
  match type of E with sort [?a; ?b; ?c] = _ =>
    destruct (sort_three_top a b c) as (TA & TB & TC)
  end.
  cbn [score] in TA, TB, TC.
  rewrite ?div_le, ?div_lt in TA by exact Ht.
  rewrite ?div_le, ?div_lt in TB by exact Ht.
  rewrite ?div_le, ?div_lt in TC by exact Ht.
  assert (Dp : (p / t * (p + n + f) == p)%Q) by (rewrite <- Et; field; lra).
  assert (Dn : (n / t * (p + n + f) == n)%Q) by (rewrite <- Et; field; lra).
  assert (Df : (f / t * (p + n + f) == f)%Q) by (rewrite <- Et; field; lra).
  destruct (Qlt_le_dec p n) as [Hpn | Hpn].
  - destruct (Qlt_le_dec n f) as [Hnf | Hnf].
    + destruct (TC ltac:(lra) Hnf) as (r & R). rewrite R in E.
      injection E as <- _. cbn [label score]. rewrite Df.
      repeat split; try discriminate; try lra; auto; intros [? ?]; lra.
    + destruct (TB Hpn Hnf) as (r & R). rewrite R in E.
      injection E as <- _. cbn [label score]. rewrite Dn.
      repeat split; try discriminate; try lra; auto; intros [? ?]; lra.
  - destruct (Qlt_le_dec p f) as [Hpf | Hpf].
    + destruct (TC Hpf ltac:(lra)) as (r & R). rewrite R in E.
      injection E as <- _. cbn [label score]. rewrite Df.
      repeat split; try discriminate; try lra; auto; intros [? ?]; lra.
    + destruct (TA Hpn Hpf) as (r & R). rewrite R in E.
      injection E as <- _. cbn [label score]. rewrite Dp.
      repeat split; try discriminate; try lra; auto; intros [? ?]; lra.
Qed.

Example primary_label_ties :
  option_map primaryLabel (analyzeSentiment "good bad" 0)
  = Some (Some "POSITIVE") /\
  option_map primaryLabel (analyzeSentiment "bad okay" 0)
  = Some (Some "NEGATIVE") /\
  option_map primaryLabel (analyzeSentiment "sad, okay, fine" 0)
  = Some (Some "NEUTRAL").
Proof. repeat split; vm_compute; reflexivity. Qed.

(** ** Percentages shown and exported *)

Lemma find_unique (A : Type) (p : A -> bool) (l : list A) (x : A) :
  In x l -> p x = true ->
  (forall y, In y l -> p y = true -> y = x) ->
  find p l = Some x.
Proof.
  induction l as [| a l IH]; intros Hin Hp Hu; [contradiction |].
  cbn [find]. destruct (p a) eqn:Pa.
  - f_equal. apply Hu; [now left | exact Pa].
  - apply IH; [| exact Hp | intros y Hy; apply Hu; now right].
    destruct Hin as [-> | Hin]; [congruence | exact Hin].
Qed.

(** In the sorted array of a text every label still finds its own entry. *)
Lemma scoreOf_analyzed (inputText : string) (now : Z) (result : AnalysisResult) :
  analyzeSentiment inputText now = Some result ->
  Forall (fun item => ExportResults.scoreOf (label item) result = score item)
         (normalizedArray inputText).
Proof.
  intro A. destruct (analyzeSentiment_inv _ _ _ A) as (S & _).
  pose proof (sort_perm (normalizedArray inputText)) as P. rewrite <- S in P.
  assert (F : forall item,
             In item (normalizedArray inputText) ->
             find (fun s => String.eqb (label s) (label item))
                  (sentiment result) = Some item).
  { intros item Hin. apply find_unique.
    - eapply Permutation_in; [symmetry; exact P | exact Hin].
    - apply String.eqb_refl.
    - intros y Hy E. eapply Permutation_in in Hy; [| exact P].
      unfold normalizedArray in Hin, Hy. cbv zeta in Hin, Hy.
      cbn [In] in Hin, Hy.
      destruct Hin as [<- | [<- | [<- | []]]];
        destruct Hy as [<- | [<- | [<- | []]]];
        first [reflexivity | discriminate E]. }
  apply Forall_forall. intros item Hin.
  unfold ExportResults.scoreOf. now rewrite (F item Hin).
Qed.

Lemma round_bounds (x : Q) :
  (inject_Z (round x) <= x + (1 # 2) /\ x + (1 # 2) < inject_Z (round x) + 1)%Q.
Proof.
  unfold round. split; [apply Qfloor_le |].
  pose proof (Qlt_floor (x + (1 # 2))) as H.
  rewrite inject_Z_plus in H. exact H.
Qed.

Lemma percent_range (x : Q) :
  (0 <= x <= 1)%Q -> (0 <= round (x * 100) <= 100)%Z.
Proof.
  intros [H0 H1]. destruct (round_bounds (x * 100)) as [Lo Hi].
  split.
  - apply Z.lt_succ_r. rewrite Zlt_Qlt. unfold Z.succ.
    rewrite inject_Z_plus. change (inject_Z 0) with 0%Q.
    change (inject_Z 1) with 1%Q. lra.
  - apply Z.lt_succ_r. rewrite Zlt_Qlt.
    change (inject_Z (Z.succ 100)) with 101%Q. lra.
Qed.

Lemma percent_sum (x y z : Q) :
  (x + y + z == 1)%Q ->
  (99 <= round (x * 100) + round (y * 100) + round (z * 100) <= 101)%Z.
Proof.
  intro H.
  destruct (round_bounds (x * 100)) as [Lx Hx].
  destruct (round_bounds (y * 100)) as [Ly Hy].
  destruct (round_bounds (z * 100)) as [Lz Hz].
  split.
  - apply Z.lt_succ_r. rewrite Zlt_Qlt. unfold Z.succ.
    rewrite !inject_Z_plus. change (inject_Z 99) with 99%Q.
    change (inject_Z 1) with 1%Q. lra.
  - apply Z.lt_succ_r. rewrite Zlt_Qlt. rewrite !inject_Z_plus.
    change (inject_Z (Z.succ 101)) with 102%Q. lra.
Qed.

Lemma normalizedArray_unit (inputText : string) :
  Forall (fun item => 0 <= score item <= 1)%Q (normalizedArray inputText) /\
  (total (normalizedArray inputText) == 1)%Q.
Proof.
  apply (normalized_unit inputText).
  exact (normalize_rawScores inputText).
Qed.

Lemma confidence_unit (inputText : string) (now : Z) (result : AnalysisResult) :
  analyzeSentiment inputText now = Some result ->
  (0 <= confidence result <= 1)%Q.
Proof.
  intro A.
  destruct (analyzeSentiment_inv _ _ _ A) as (S & _ & _ & _ & top & rest & E & ->).
  destruct (normalizedArray_unit inputText) as (U & _).
  rewrite Forall_forall in U. apply U.
  eapply Permutation_in; [apply sort_perm |].
  rewrite <- S, E. now left.
Qed.

(** X6.  For the result of an analysis, the three per-label percentages
    that the CSV export and the comparison chart show (each score times 100,
    rounded) lie between 0 and 100 and add up to 99, 100 or 101: rounding
    can lose or gain one point, never more. *)
Theorem X6_percentages_add_up (inputText : string) (now : Z) :
  exists result,
    analyzeSentiment inputText now = Some result /\
    let pos := round (ExportResults.scoreOf "POSITIVE" result * 100) in
    let neg := round (ExportResults.scoreOf "NEGATIVE" result * 100) in
    let neu := round (ExportResults.scoreOf "NEUTRAL" result * 100) in
    (0 <= pos <= 100)%Z /\ (0 <= neg <= 100)%Z /\ (0 <= neu <= 100)%Z /\
    (99 <= pos + neg + neu <= 101)%Z /\
    (0 <= round (confidence result * 100) <= 100)%Z.
Proof.
  destruct (analyzeSentiment_some inputText now) as (result & A).
  exists result. split; [exact A |]. cbv zeta.
  pose proof (scoreOf_analyzed _ _ _ A) as F.
  destruct (normalizedArray_unit inputText) as (U & T).
  unfold normalizedArray in F, U, T. cbv zeta in F, U, T.
  set (t := total (sentimentArray (rawScores inputText))) in *.
  inversion F as [| ? ? Fp F1]; subst. inversion F1 as [| ? ? Fn F2]; subst.
  inversion F2 as [| ? ? Fu _]; subst.
  inversion U as [| ? ? Up U1]; subst. inversion U1 as [| ? ? Un U2]; subst.
  inversion U2 as [| ? ? Uu _]; subst.
  cbn [label score] in *. rewrite Fp, Fn, Fu.
  unfold total in T. cbn [fold_left score] in T.
  split; [now apply percent_range |]. split; [now apply percent_range |].
  split; [now apply percent_range |].
  split; [apply percent_sum; lra |].
  apply percent_range. now apply (confidence_unit inputText now).
Qed.

Example percentages_99_and_101 :
  option_map (fun r => map (fun e => Charts.pieValue e) (Charts.pieData (Some r)))
             (analyzeSentiment "good, bad, okay" 0)
  = Some [33; 33; 33]%Z /\
  option_map (fun r => map (fun e => Charts.pieValue e) (Charts.pieData (Some r)))
             (analyzeSentiment "good bad" 0)
  = Some [48; 48; 5]%Z.
Proof. split; vm_compute; reflexivity. Qed.

(** X7.  The pie chart of an analysis result has three slices, one per
    label; each slice shows the very percentage the export and the
    comparison chart compute for its label; and no label of the result
    falls through to the default badge. *)
Theorem X7_pie_and_badges (inputText : string) (now : Z) :
  exists result,
    analyzeSentiment inputText now = Some result /\
    List.length (Charts.pieData (Some result)) = 3%nat /\
    Permutation (map Charts.pieName (Charts.pieData (Some result)))
                ["POSITIVE"; "NEGATIVE"; "NEUTRAL"] /\
    Forall (fun slice =>
              Charts.pieValue slice
              = round (ExportResults.scoreOf (Charts.pieName slice) result * 100))
           (Charts.pieData (Some result)) /\
    Forall (fun item =>
              Charts.getSentimentBadgeVariant (label item) <> "secondary")
           (sentiment result).
Proof.
  destruct (analyzeSentiment_some inputText now) as (result & A).
  exists result. split; [exact A |].
  pose proof (scoreOf_analyzed _ _ _ A) as F.
  destruct (analyzeSentiment_inv _ _ _ A) as (S & _).
  pose proof (sort_perm (normalizedArray inputText)) as P. rewrite <- S in P.
  unfold Charts.pieData. rewrite length_map, !map_map. cbn [Charts.pieName].
  split; [now rewrite (Permutation_length P) |].
  split; [now rewrite (Permutation_map label P) |].
  split.
  - apply Forall_map. cbn [Charts.pieValue Charts.pieName].
    eapply Permutation_Forall; [symmetry; exact P |].
    eapply Forall_impl; [| exact F].
    intros item H. cbv beta in H. now rewrite H.
  - eapply Permutation_Forall; [symmetry; exact P |].
    unfold normalizedArray. cbv zeta.
    repeat constructor; cbn; discriminate.
Qed.

(** ** What the session holds *)

Lemma Forall_firstn (A : Type) (P : A -> Prop) (n : nat) (l : list A) :
  Forall P l -> Forall P (firstn n l).
Proof.
  rewrite !Forall_forall. intros H x Hx. apply H. eapply In_firstn, Hx.
Qed.

Lemma step_coherent (st : Dashboard.State) (ev : Dashboard.Event) :
  coherent st -> coherent (Dashboard.step st ev).
Proof.
  intros (C & F & B).
  destruct ev as [now | | value | content name]; cbn [Dashboard.step].
  - unfold Dashboard.handleAnalyze.
    destruct (isBlank (Dashboard.text st)) eqn:Blank; [now repeat split |].
    destruct (analyzeSentiment_some (Dashboard.text st) now) as (result & A).
    rewrite A.
    destruct (analyzeSentiment_inv _ _ _ A) as (_ & _ & T & _).
    unfold coherent.
    cbn [Dashboard.results Dashboard.currentResult Dashboard.isAnalyzing
         hd_error].
    split; [reflexivity |]. split; [| reflexivity].
    constructor; [| now apply Forall_firstn].
    rewrite T. split; [exact Blank | now exists now].
  - repeat split; cbn; [constructor | exact B].
  - repeat split; assumption.
  - repeat split; assumption.
Qed.

Lemma run_coherent (evs : list Dashboard.Event) (st : Dashboard.State) :
  coherent st -> coherent (Dashboard.run evs st).
Proof.
  unfold Dashboard.run. revert st.
  induction evs as [| ev evs IH]; intros st H; [exact H |].
  cbn [fold_left]. now apply IH, step_coherent.
Qed.

Lemma initial_coherent : coherent Dashboard.initial.
Proof. repeat split; constructor. Qed.

(** X8.  In every state the dashboard can reach from its initial state, the
    current result is the newest entry of the results list (none exactly
    when the list is empty), every stored result is what the scoring pass
    returns for its own, non-blank text. *)
Theorem X8_session_coherent (evs : list Dashboard.Event) :
  let st := Dashboard.run evs Dashboard.initial in
  Dashboard.currentResult st = hd_error (Dashboard.results st) /\
  (Dashboard.currentResult st = None <-> Dashboard.results st = []) /\
  Forall (fun r => isBlank (text r) = false /\
                   exists now, analyzeSentiment (text r) now = Some r)
         (Dashboard.results st).
Proof.
  intro st.
  destruct (run_coherent evs _ initial_coherent) as (C & F & _). fold st in C, F.
  split; [exact C |]. split; [| assumption].
  rewrite C. destruct (Dashboard.results st); cbn; split; congruence.
Qed.

(** X9.  Whatever the session holds, the CSV downloaded from the dashboard
    never lists more than the newest result: in a reachable state the
    exporter either has nothing to export (no analysis since the start or
    the last reset) or downloads the header row and the one row of the
    newest result; it never throws. *)
Theorem X9_export_one_row (toISOString : Z -> string)
  (evs : list Dashboard.Event) :
  let st := Dashboard.run evs Dashboard.initial in
  (Dashboard.results st = [] /\
   ExportResults.exportToCSV toISOString (Dashboard.results st)
                             (Dashboard.currentResult st)
   = ExportResults.NothingToExport)
  \/
  (exists newest older row,
      Dashboard.results st = newest :: older /\
      ExportResults.csvRow toISOString newest = Some row /\
      ExportResults.exportToCSV toISOString (Dashboard.results st)
                                (Dashboard.currentResult st)
      = ExportResults.Downloaded
          (join ExportResults.newline
                [join "," ExportResults.headers; row])).
Proof.
  intro st.
  destruct (run_coherent evs _ initial_coherent) as (C & F & _). fold st in C, F.
  rewrite C. destruct (Dashboard.results st) as [| newest older].
  - left. split; reflexivity.
  - right. inversion F as [| ? ? (_ & now & A) _]; subst.
    destruct (analyzeSentiment_inv _ _ _ A) as (_ & _ & _ & _ & top & rest & E & _).
    exists newest, older. eexists. split; [reflexivity |].
    cbn [hd_error].
    unfold ExportResults.exportToCSV, ExportResults.csvLines,
      ExportResults.dataToExport, ExportResults.csvRows, ExportResults.csvRow.
    rewrite E. split; reflexivity.
Qed.

(** ** The comparison chart *)

Lemma mapWithIndex_by_index (A B C : Type) (f : A -> nat -> B) (g : B -> C)
  (h : nat -> C) (start : nat) (arr : list A) :
  (forall x i, g (f x i) = h i) ->
  map g (Charts.mapWithIndex f start arr) = map h (seq start (List.length arr)).
Proof.
  intro H. revert start.
  induction arr as [| x arr IH]; intro start; [reflexivity |].
  cbn. now rewrite H, IH.
Qed.

Lemma mapWithIndex_by_item (A B C : Type) (f : A -> nat -> B) (g : B -> C)
  (h : A -> C) (start : nat) (arr : list A) :
  (forall x i, g (f x i) = h x) ->
  map g (Charts.mapWithIndex f start arr) = map h arr.
Proof.
  intro H. revert start.
  induction arr as [| x arr IH]; intro start; [reflexivity |].
  cbn. now rewrite H, IH.
Qed.

Lemma countdown_rev (C : Type) (g : Z -> C) (n k : nat) :
  (k <= n)%nat ->
  rev (map (fun i => g (Z.of_nat n - Z.of_nat i)%Z) (seq 0 k))
  = map (fun j => g (Z.of_nat j)) (seq (n - k + 1) k).
Proof.
  induction k as [| k IH]; intro H; [reflexivity |].
  rewrite seq_S, map_app, rev_app_distr. cbn [map rev app Nat.add].
  rewrite IH by lia.
  replace (n - S k + 1)%nat with (n - k)%nat by lia.
  cbn [seq map]. f_equal.
  - f_equal. lia.
  - f_equal. f_equal. lia.
Qed.

(** X10.  The comparison chart shows the newest results, five at most,
    oldest first.  With n results held and k = min(5, n) bars, the bars are
    named Text n-k+1, ..., Text n, and carry the rounded per-label
    percentages of those results in reverse list order. *)
Theorem X10_bar_chart (results : list AnalysisResult) :
  let n := List.length results in
  let k := Nat.min 5 n in
  List.length (Charts.barData results) = k /\
  map Charts.barName (Charts.barData results)
  = map (fun j => ("Text " ++ toString (Z.of_nat j))%string) (seq (n - k + 1) k) /\
  map (fun bar => (Charts.positive bar, Charts.negative bar, Charts.neutral bar))
      (Charts.barData results)
  = map (fun result =>
           (round (ExportResults.scoreOf "POSITIVE" result * 100),
            round (ExportResults.scoreOf "NEGATIVE" result * 100),
            round (ExportResults.scoreOf "NEUTRAL" result * 100)))
        (rev (firstn 5 results)).
Proof.
  intros n k. unfold Charts.barData. fold n.
  assert (L : List.length (firstn 5 results) = k) by apply length_firstn.
  split; [| split].
  - rewrite length_rev, <- L.
    rewrite <- (length_map Charts.barName).
    rewrite (mapWithIndex_by_index _ _ _ _ _
               (fun i => ("Text " ++ toString (Z.of_nat n - Z.of_nat i))%string));
      [| reflexivity].
    now rewrite length_map, length_seq.
  - rewrite map_rev.
    rewrite (mapWithIndex_by_index _ _ _ _ _
               (fun i => ("Text " ++ toString (Z.of_nat n - Z.of_nat i))%string));
      [| reflexivity].
    rewrite L.
    apply (countdown_rev _ (fun z => ("Text " ++ toString z)%string)). lia.
  - rewrite !map_rev. f_equal.
    apply mapWithIndex_by_item. reflexivity.
Qed.

Example barData_saturated :
  map Charts.barName
      (Charts.barData
         (Dashboard.results
            (Dashboard.run
               (Dashboard.SetText "so good" :: repeat (Dashboard.Analyze 0) 12)
               Dashboard.initial)))
  = ["Text 6"; "Text 7"; "Text 8"; "Text 9"; "Text 10"].
Proof. vm_compute. reflexivity. Qed.

(** ** The quoted cells of a CSV row *)

Lemma string_length_append (a b : string) :
  String.length (a ++ b) = (String.length a + String.length b)%nat.
Proof.
  induction a as [| c a IH]; [reflexivity |]. cbn. now rewrite IH.
Qed.

Lemma countChar_append (c : ascii) (a b : string) :
  countChar c (a ++ b) = (countChar c a + countChar c b)%nat.
Proof.
  induction a as [| d a IH]; [reflexivity |].
  cbn [append countChar]. rewrite IH. lia.
Qed.

Lemma escapeQuotes_count (s : string) :
  countChar (ascii_of_nat 34) (escapeQuotes s)
  = (2 * countChar (ascii_of_nat 34) s)%nat /\
  String.length (escapeQuotes s)
  = (String.length s + countChar (ascii_of_nat 34) s)%nat.
Proof.
  induction s as [| c s [IH1 IH2]]; [split; reflexivity |].
  cbn [escapeQuotes countChar String.length].
  destruct (Ascii.eqb c (ascii_of_nat 34)) eqn:E;
    cbn [countChar String.length]; rewrite ?E, IH1, IH2; split; lia.
Qed.

Lemma escapeQuotes_injective (s1 s2 : string) :
  escapeQuotes s1 = escapeQuotes s2 -> s1 = s2.
Proof.
  revert s2. induction s1 as [| c1 s1 IH]; intros [| c2 s2] H.
  - reflexivity.
  - cbn in H. destruct (Ascii.eqb c2 _); discriminate H.
  - cbn in H. destruct (Ascii.eqb c1 _); discriminate H.
  - cbn [escapeQuotes] in H.
    destruct (Ascii.eqb c1 (ascii_of_nat 34)) eqn:E1,
             (Ascii.eqb c2 (ascii_of_nat 34)) eqn:E2;
      inversion H; subst; try congruence.
    + f_equal. now apply IH.
    + f_equal. now apply IH.
Qed.

(** X11.  The text cell of a CSV row loses nothing: doubling the quotes is
    injective, so two different texts never give the same cell; the cell
    (the escaped text between two quotes) holds an even number of quote
    characters, twice those of the text plus the two around it. *)
Theorem X11_text_cell (text1 text2 : string) :
  (ExportResults.quoted (escapeQuotes text1)
   = ExportResults.quoted (escapeQuotes text2) -> text1 = text2) /\
  countChar (ascii_of_nat 34) (ExportResults.quoted (escapeQuotes text1))
  = (2 * countChar (ascii_of_nat 34) text1 + 2)%nat.
Proof.
  split.
  - unfold ExportResults.quoted, ExportResults.dquote. cbn [append].
    intro H. injection H as H.
    apply escapeQuotes_injective.
    assert (L : String.length (escapeQuotes text1)
                = String.length (escapeQuotes text2)).
    { apply (f_equal String.length) in H.
      rewrite !string_length_append in H. cbn in H. lia. }
    revert L H. generalize (escapeQuotes text1) (escapeQuotes text2).
    induction s as [| a s IH]; intros [| b s0] L H; cbn in L;
      try discriminate L; [reflexivity |].
    cbn [append] in H. injection H as -> H. f_equal. apply IH; [lia | exact H].
  - unfold ExportResults.quoted, ExportResults.dquote.
    rewrite !countChar_append. destruct (escapeQuotes_count text1) as [-> _].
    cbn. lia.
Qed.

Lemma X11_text_cell_witness :
  ExportResults.quoted (escapeQuotes "say hi")
  = ExportResults.quoted (escapeQuotes "say hi") /\
  "say hi" = "say hi".
Proof.
  split; [reflexivity |].
  apply (proj1 (X11_text_cell "say hi" "say hi")). reflexivity.
Defined.

Lemma wordChars_no_quote (w : string) :
  allWordChars w = true -> countChar (ascii_of_nat 34) w = 0%nat.
Proof.
  induction w as [| c w IH]; [reflexivity |].
  cbn [allWordChars countChar]. intro H.
  apply andb_true_iff in H. destruct H as [Hc Hw].
  rewrite (IH Hw).
  destruct (Ascii.eqb c (ascii_of_nat 34)) eqn:E; [| reflexivity].
  apply Ascii.eqb_eq in E. subst. discriminate Hc.
Qed.

Lemma join_no_quote (words : list string) :
  Forall (fun w => countChar (ascii_of_nat 34) w = 0%nat) words ->
  countChar (ascii_of_nat 34) (join ", " words) = 0%nat.
Proof.
  induction 1 as [| w ws Hw _ IH]; [reflexivity |].
  cbn [join]. destruct ws as [| w' ws']; [exact Hw |].
  rewrite !countChar_append, Hw, IH. reflexivity.
Qed.

Lemma extractKeywords_wordChars (inputText : string) :
  Forall (fun w => allWordChars w = true) (extractKeywords inputText).
Proof.
  apply Forall_forall. intros w Hin. unfold extractKeywords in Hin.
  apply In_firstn, filter_In in Hin. destruct Hin as [Hin _].
  apply filter_In in Hin. destruct Hin as [Hin _].
  pose proof (split_pieces (toLowerCase inputText)) as Pc.
  rewrite Forall_forall in Pc. now destruct (Pc w Hin).
Qed.

(** X12.  The keyword cell of a CSV row is joined and quoted without any
    escaping, and for the keywords of an analysis none is needed: keywords
    consist of word characters, so the cell holds exactly its two enclosing
    quotes. *)
Theorem X12_keyword_cell (inputText : string) :
  countChar (ascii_of_nat 34)
            (ExportResults.quoted (join ", " (extractKeywords inputText)))
  = 2%nat.
Proof.
  unfold ExportResults.quoted, ExportResults.dquote.
  rewrite !countChar_append, join_no_quote; [reflexivity |].
  eapply Forall_impl; [| apply extractKeywords_wordChars].
  intros w. apply wordChars_no_quote.
Qed.

(** ** File upload *)

Lemma substring_all (s : string) : substring 0 (String.length s) s = s.
Proof.
  induction s as [| c s IH]; [reflexivity |]. cbn. now rewrite IH.
Qed.

Lemma substring_skip (a b : string) (m : nat) :
  substring (String.length a) m (a ++ b) = substring 0 m b.
Proof.
  induction a as [| c a IH]; [reflexivity |]. cbn. exact IH.
Qed.

Lemma endsWith_append (base suffix : string) :
  Upload.endsWith suffix (base ++ suffix) = true.
Proof.
  unfold Upload.endsWith. rewrite string_length_append.
  apply andb_true_iff. split; [apply Nat.leb_le; lia |].
  replace (String.length base + String.length suffix - String.length suffix)%nat
    with (String.length base) by lia.
  rewrite substring_skip, substring_all. apply String.eqb_refl.
Qed.

Lemma prefix_append (p s : string) : prefix p (p ++ s) = true.
Proof.
  induction p as [| c p IH]; [destruct s; reflexivity |].
  cbn. destruct (ascii_dec c c); [exact IH | congruence].
Qed.

(** X13.  A chosen file is taken when its MIME type starts with text/ or
    its name ends in .txt, whatever the other of the two says.  A file that
    is refused raises the alert and leaves the whole state as it was; a
    file that is taken replaces the text by its content and records its
    name; in no case does an upload touch the results or the current
    result. *)
Theorem X13_file_upload :
  (forall base type content,
      Upload.accepted (Upload.mkFile (base ++ ".txt") type content) = true) /\
  (forall name subtype content,
      Upload.accepted (Upload.mkFile name ("text/" ++ subtype) content) = true) /\
  (forall file st,
      Upload.accepted file = false ->
      Upload.handleFileUpload (Some file) st = (st, true)) /\
  (forall file st,
      Upload.accepted file = true ->
      snd (Upload.handleFileUpload (Some file) st) = false /\
      Dashboard.text (fst (Upload.handleFileUpload (Some file) st))
      = Upload.content file /\
      Dashboard.fileName (fst (Upload.handleFileUpload (Some file) st))
      = Some (Upload.name file)) /\
  (forall file st,
      Dashboard.results (fst (Upload.handleFileUpload file st))
      = Dashboard.results st /\
      Dashboard.currentResult (fst (Upload.handleFileUpload file st))
      = Dashboard.currentResult st).
Proof.
  split; [| split; [| split; [| split]]].
  - intros. unfold Upload.accepted. cbn [Upload.name Upload.type].
    rewrite endsWith_append. apply orb_true_r.
  - intros. unfold Upload.accepted. cbn [Upload.name Upload.type].
    now rewrite prefix_append.
  - intros file st H. unfold Upload.accepted in H.
    apply orb_false_iff in H. destruct H as [H1 H2].
    unfold Upload.handleFileUpload. now rewrite H1, H2.
  - intros file st H. unfold Upload.accepted in H.
    unfold Upload.handleFileUpload.
    destruct (prefix "text/" (Upload.type file)),
             (Upload.endsWith ".txt" (Upload.name file));
      try discriminate H; repeat split.
  - intros [file |] st; unfold Upload.handleFileUpload; [| now split].
    destruct (negb _ && negb _); now split.
Qed.

Lemma X13_file_upload_witness :
  Upload.accepted (Upload.mkFile "photo.png" "image/png" "...") = false /\
  Upload.handleFileUpload
    (Some (Upload.mkFile "photo.png" "image/png" "...")) Dashboard.initial
  = (Dashboard.initial, true).
Proof.
  split; [reflexivity |].
  apply (proj1 (proj2 (proj2 X13_file_upload))). reflexivity.
Defined.

Example upload_examples :
  Upload.accepted (Upload.mkFile "notes.txt" "" "abc") = true /\
  Upload.accepted (Upload.mkFile "page.html" "text/html" "abc") = true /\
  Upload.accepted (Upload.mkFile "notes.TXT" "application/octet-stream" "abc")
  = false /\
  Upload.accepted (Upload.mkFile "txt" "" "abc") = false.
Proof. repeat split. Qed.

(** ** The explanation card and the scoring pass *)

Lemma showsImpact_app (line : string) (a b : list SentimentExplanation.Feature) :
  SentimentExplanation.showsImpact line (a ++ b)
  = SentimentExplanation.showsImpact line a
    || SentimentExplanation.showsImpact line b.
Proof. apply existsb_app. Qed.

Lemma showsImpact_pushIf (line : string) (guard : bool)
  (feature : SentimentExplanation.Feature) :
  SentimentExplanation.showsImpact line
    (SentimentExplanation.pushIf guard feature)
  = guard && String.eqb (SentimentExplanation.impact feature) line.
Proof. destruct guard; cbn; [apply orb_false_r | reflexivity]. Qed.

Lemma filter_nonempty (A : Type) (p : A -> bool) (l : list A) :
  (0 <? List.length (filter p l))%nat = existsb p l.
Proof.
  induction l as [| x l IH]; [reflexivity |].
  cbn [filter existsb]. destruct (p x); [reflexivity | exact IH].
Qed.

Lemma countWords_lower (words : list string) (lowered : string) (start : Q) :
  (start <= countWords words lowered start)%Q /\
  forall w, In w words ->
            (start + ofNat (countMatches w lowered)
             <= countWords words lowered start)%Q.
Proof.
  unfold countWords. revert start.
  induction words as [| v words IH]; intro start; cbn [fold_left].
  - split; [lra | contradiction].
  - destruct (IH (start + ofNat (countMatches v lowered))%Q) as [G H].
    pose proof (ofNat_nonneg (countMatches v lowered)) as N.
    split; [lra |]. intros w [<- | Hin]; [exact G |].
    specialize (H w Hin). lra.
Qed.

Lemma countWords_none (words : list string) (lowered : string) (start : Q) :
  existsb (fun w => includes w lowered) words = false ->
  (countWords words lowered start == start)%Q.
Proof.
  unfold countWords. revert start.
  induction words as [| v words IH]; intros start H; cbn [fold_left];
    [reflexivity |].
  cbn [existsb] in H. apply orb_false_iff in H. destruct H as [Hv H].
  rewrite (IH _ H), (countMatches_absent _ _ Hv).
  change (ofNat 0) with 0%Q. lra.
Qed.

(** A list of non-empty words scores above zero exactly when one of them
    occurs. *)
Lemma countWords_positive (words : list string) (lowered : string) :
  Forall (fun w => w <> EmptyString) words ->
  (0 < countWords words lowered 0)%Q
  <-> existsb (fun w => includes w lowered) words = true.
Proof.
  intro NE. split.
  - intro H. destruct (existsb _ words) eqn:E; [reflexivity |].
    rewrite (countWords_none _ _ _ E) in H. lra.
  - intro E. apply existsb_exists in E. destruct E as (w & Hin & I).
    rewrite Forall_forall in NE.
    pose proof (countFrom_present w lowered (NE w Hin) I) as C.
    fold (countMatches w lowered) in C. apply ofNat_pos in C.
    destruct (countWords_lower words lowered 0) as [_ L].
    specialize (L w Hin). lra.
Qed.

Lemma phrases_bonus (phrases : list string) (lowered : string) (start : Q) :
  (start < fold_left (fun acc phrase =>
                        if includes phrase lowered then (acc + 3)%Q else acc)
                     phrases start)%Q
  <-> existsb (fun p => includes p lowered) phrases = true.
Proof.
  revert start.
  induction phrases as [| p ps IH]; intro start; cbn [fold_left existsb].
  - split; [intro; lra | discriminate].
  - destruct (includes p lowered) eqn:I; cbn [orb]; [| apply IH].
    split; [reflexivity | intros _].
    pose proof (phrases_nonneg ps lowered 0) as N.
    assert (G : forall a, (a <= fold_left
                  (fun acc phrase =>
                     if includes phrase lowered then (acc + 3)%Q else acc)
                  ps a)%Q).
    { clear. induction ps as [| q qs IHq]; intro a; cbn [fold_left]; [lra |].
      destruct (includes q lowered); [| apply IHq].
      specialize (IHq (a + 3)%Q). lra. }
    specialize (G (start + 3)%Q). lra.
Qed.

Lemma lowerChar_bang (c : ascii) :
  prefix "!" (String (lowerChar c) EmptyString)
  = prefix "!" (String c EmptyString).
Proof. destruct c as [[] [] [] [] [] [] [] []]; reflexivity. Qed.

Lemma prefix_bang (c : ascii) (s : string) :
  prefix "!" (String c s) = prefix "!" (String c EmptyString).
Proof.
  cbn [prefix]. destruct (ascii_dec "!"%char c); [| reflexivity].
  destruct s; reflexivity.
Qed.

Lemma countExclamations_lower (s : string) (skip : nat) :
  countFrom "!" (toLowerCase s) skip = countFrom "!" s skip.
Proof.
  revert skip. induction s as [| c s IH]; intro skip; [reflexivity |].
  cbn [toLowerCase countFrom]. destruct skip as [| k]; [| apply IH].
  rewrite (prefix_bang (lowerChar c)), (prefix_bang c s), lowerChar_bang.
  destruct (prefix "!" (String c EmptyString)); now rewrite IH.
Qed.

Lemma words_nonempty :
  Forall (fun w => w <> EmptyString)
         (positiveWords ++ negativeWords ++ neutralWords).
Proof. repeat constructor; discriminate. Qed.

(** X14.  The explanation card and the scoring pass agree on what they
    saw: the card lists positive words exactly when the positive word count
    is above zero, negative words exactly when the negative word count is,
    strong phrases exactly when the pass added a phrase weight, and it
    reports exclamation marks exactly when the pass counted some. *)
Theorem X14_explanation_agrees (inputText : string) :
  let features := SentimentExplanation.analyzeTextFeatures inputText in
  let lowered := toLowerCase inputText in
  (SentimentExplanation.showsImpact "Increases positive sentiment" features
   = true
   <-> (0 < positiveScore (wordScores lowered))%Q) /\
  (SentimentExplanation.showsImpact "Increases negative sentiment" features
   = true
   <-> (0 < negativeScore (wordScores lowered))%Q) /\
  (SentimentExplanation.showsImpact "Strongly increases negative sentiment"
                                    features = true
   <-> (negativeScore (wordScores lowered)
        < negativeScore (scoresBeforeExclamations inputText))%Q) /\
  (SentimentExplanation.showsImpact "Indicates emotional intensity" features
   = true
   <-> (0 < countExclamations lowered)%nat).
Proof.
  intros features lowered. subst features.
  unfold SentimentExplanation.analyzeTextFeatures. fold lowered.
  rewrite !showsImpact_app, !showsImpact_pushIf.
  cbn [SentimentExplanation.impact String.eqb Ascii.eqb Bool.eqb].
  rewrite ?andb_false_r, ?andb_true_r, ?orb_false_r, ?orb_false_l.
  rewrite !filter_nonempty.
  pose proof words_nonempty as NE.
  rewrite !Forall_app in NE. destruct NE as (NP & NN & _).
  split; [| split; [| split]].
  - symmetry. apply (countWords_positive positiveWords lowered NP).
  - symmetry. apply (countWords_positive negativeWords lowered NN).
  - symmetry. unfold scoresBeforeExclamations, addStrongPhrases.
    fold lowered. cbn [negativeScore]. apply phrases_bonus.
  - unfold countExclamations, countMatches, lowered.
    rewrite countExclamations_lower. apply Nat.ltb_lt.
Qed.

Lemma sort_last_first (a b c : SentimentResult) :
  (score b <= score a)%Q -> (score a < score c)%Q ->
  sort [a; b; c] = [c; a; b].
Proof.
  intros Hba Hac.
  pose proof (compareFn_le b c) as Hbc.
  pose proof (compareFn_le a b) as Hab.
  pose proof (compareFn_le a c) as Hc.
  unfold descending in *. cbn [sort insert].
  destruct (Qle_bool (compareFn b c) 0); cbn [insert];
    destruct (Qle_bool (compareFn a b) 0);
    destruct (Qle_bool (compareFn a c) 0);
    decide_tests; cbn [insert];
    first [ reflexivity | exfalso; lra | idtac ].
  all: destruct (Qle_bool (compareFn a b) 0) eqn:E;
    [reflexivity | exfalso].
  all: assert (Qle_bool (compareFn a b) 0 = true) as T
      by (apply compareFn_le; exact Hba); congruence.
Qed.

(** Without positive or negative score the result is NEUTRAL alone. *)
Lemma neutral_alone (inputText : string) (now : Z) :
  (positiveScore (rawScores inputText) == 0)%Q ->
  (negativeScore (rawScores inputText) == 0)%Q ->
  exists result neu pos neg,
    analyzeSentiment inputText now = Some result /\
    sentiment result = [neu; pos; neg] /\
    (label neu = "NEUTRAL" /\ score neu == 1)%Q /\
    (label pos = "POSITIVE" /\ score pos == 0)%Q /\
    (label neg = "NEGATIVE" /\ score neg == 0)%Q /\
    (confidence result == 1)%Q.
Proof.
  intros Hp Hn.
  destruct (analyzeSentiment_some inputText now) as (result & A).
  destruct (analyzeSentiment_inv _ _ _ A)
    as (S & _ & _ & _ & top & rest & E & C).
  destruct (rawScores_nonneg inputText) as (_ & _ & Hu).
  pose proof (neutralEntry_pos _ Hu) as Hf.
  pose proof (total_rawScores_pos inputText) as Ht.
  pose proof (total_sentimentArray (rawScores inputText)) as Et.
  unfold normalizedArray in S. cbv zeta in S.
  set (t := total (sentimentArray (rawScores inputText))) in *.
  set (p := positiveScore (rawScores inputText)) in *.
  set (n := negativeScore (rawScores inputText)) in *.
  set (f := neutralEntry (rawScores inputText)) in *.
  assert (Dp : (p / t == 0)%Q) by (rewrite Hp; field; lra).
  assert (Dn : (n / t == 0)%Q) by (rewrite Hn; field; lra).
  assert (Df : (f / t == 1)%Q) by (rewrite Et, Hp, Hn; field; lra).
  rewrite sort_last_first in S by (cbn [score]; lra).
  rewrite S in E. injection E as <- <-.
  eexists result, _, _, _. split; [exact A |]. split; [exact S |].
  rewrite C. cbn [label score]. repeat split; assumption.
Qed.

(** X15.  When the explanation card finds no indicator at all ("No specific
    sentiment indicators found"), the analysis it explains is NEUTRAL with
    full confidence: NEUTRAL 1, POSITIVE 0, NEGATIVE 0, in that order. *)
Theorem X15_no_indicator_neutral (inputText : string) (now : Z) :
  SentimentExplanation.analyzeTextFeatures inputText = [] ->
  exists result neu pos neg,
    analyzeSentiment inputText now = Some result /\
    sentiment result = [neu; pos; neg] /\
    (label neu = "NEUTRAL" /\ score neu == 1)%Q /\
    (label pos = "POSITIVE" /\ score pos == 0)%Q /\
    (label neg = "NEGATIVE" /\ score neg == 0)%Q /\
    (confidence result == 1)%Q.
Proof.
  intro H. unfold SentimentExplanation.analyzeTextFeatures in H.
  set (lowered := toLowerCase inputText) in *.
  apply app_eq_nil in H. destruct H as [H1 H].
  apply app_eq_nil in H. destruct H as [H2 H].
  apply app_eq_nil in H. destruct H as [H3 _].
  rewrite filter_nonempty in H1, H2, H3.
  assert (G : forall g ft, SentimentExplanation.pushIf g ft = [] -> g = false).
  { intros [] ft; [discriminate | reflexivity]. }
  apply G in H1, H2, H3.
  assert (B : (positiveScore (scoresBeforeExclamations inputText) == 0)%Q /\
              (negativeScore (scoresBeforeExclamations inputText) == 0)%Q).
  { unfold scoresBeforeExclamations, addStrongPhrases, wordScores.
    fold lowered. cbn [positiveScore negativeScore].
    split; [now apply countWords_none |].
    pose proof (countWords_none negativeWords lowered 0 H2) as Cn.
    change SentimentExplanation.strongNegativePhrases
      with strongNegativePhrases in H3.
    rewrite (phrases_absent strongNegativePhrases lowered); [exact Cn |].
    intros ph Hin. destruct (includes ph lowered) eqn:I; [| reflexivity].
    assert (T : existsb (fun q => includes q lowered) strongNegativePhrases
                = true).
    { apply existsb_exists. exists ph. split; assumption. }
    rewrite T in H3. discriminate H3. }
  destruct B as [Bp Bn].
  assert (R : positiveScore (rawScores inputText)
              = positiveScore (scoresBeforeExclamations inputText) /\
              negativeScore (rawScores inputText)
              = negativeScore (scoresBeforeExclamations inputText)).
  { unfold rawScores, scoresAfterExclamations.
    set (s := scoresBeforeExclamations inputText) in *.
    assert (X : addExclamations (countExclamations (toLowerCase inputText)) s
                = s).
    { unfold addExclamations.
      destruct (0 <? _)%nat; [| reflexivity].
      assert (gt (negativeScore s) (positiveScore s) = false) as ->
        by (apply gt_false; lra).
      assert (gt (positiveScore s) (negativeScore s) = false) as ->
        by (apply gt_false; lra).
      reflexivity. }
    rewrite X. unfold setBaseScores.
    destruct (_ && _); split; reflexivity. }
  destruct R as [Rp Rn].
  apply neutral_alone; [rewrite Rp | rewrite Rn]; assumption.
Qed.

Lemma X15_no_indicator_neutral_witness :
  SentimentExplanation.analyzeTextFeatures "it is fine, a regular day" = [] /\
  exists result neu pos neg,
    analyzeSentiment "it is fine, a regular day" 0 = Some result /\
    sentiment result = [neu; pos; neg] /\
    (label neu = "NEUTRAL" /\ score neu == 1)%Q /\
    (label pos = "POSITIVE" /\ score pos == 0)%Q /\
    (label neg = "NEGATIVE" /\ score neg == 0)%Q /\
    (confidence result == 1)%Q.
Proof.
  split; [reflexivity |].
  apply (X15_no_indicator_neutral "it is fine, a regular day" 0).
  reflexivity.
Defined.

(** ** PDF export *)

Example exportToPDF_ex :
  PdfExport.exportToPDF (fun s _ => [s]) toString toString
    (fun _ => "2024-05-01T10:00:00.000Z") []
    (analyzeSentiment "Good" 7) 9
  = PdfExport.Saved
      [ PdfExport.SetFontSize 20;
        PdfExport.DrawText ["Sentiment Analysis Report"] 20 30;
        PdfExport.SetFontSize 12;
        PdfExport.DrawText ["Generated on: 9"] 20 45;
        PdfExport.DrawText ["Total Analyses: 1"] 20 55;
        PdfExport.SetFontSize 14;
        PdfExport.DrawText ["Analysis 1"] 20 75;
        PdfExport.SetFontSize 10;
        PdfExport.DrawText ["Date: 7"] 20 85;
        PdfExport.DrawText ["Text: Good"] 20 93;
        PdfExport.DrawText ["Primary Sentiment: POSITIVE (91% confidence)"]
                           20 103;
        PdfExport.DrawText ["POSITIVE: 91%"] 30 111;
        PdfExport.DrawText ["NEUTRAL: 9%"] 30 117;
        PdfExport.DrawText ["NEGATIVE: 0%"] 30 123;
        PdfExport.DrawText ["Keywords: good"] 20 129;
        PdfExport.Save "sentiment-analysis-2024-05-01.pdf" ].
Proof. vm_compute. reflexivity. Qed.

(** X16.  The text of a result takes at most three lines in the PDF: up to
    three lines are shown as they are; of more than three the first two are
    shown as they are and the third with an ellipsis appended. *)
Theorem X16_display_lines (textLines : list string) :
  List.length (PdfExport.displayLines textLines)
  = Nat.min 3 (List.length textLines) /\
  ((List.length textLines <= 3)%nat ->
   PdfExport.displayLines textLines = textLines) /\
  ((3 < List.length textLines)%nat ->
   exists first second third rest,
     textLines = first :: second :: third :: rest /\
     PdfExport.displayLines textLines
     = [first; second; (third ++ "...")%string]).
Proof.
  destruct textLines as [| a [| b [| c [| d rest]]]];
    (split; [reflexivity |]); split; intro H; cbn in H; try lia;
    try reflexivity.
  now exists a, b, c, (d :: rest).
Qed.

Lemma X16_display_lines_witness :
  (3 < List.length ["l1"; "l2"; "l3"; "l4"])%nat /\
  PdfExport.displayLines ["l1"; "l2"; "l3"; "l4"] = ["l1"; "l2"; "l3..."].
Proof.
  split; [cbn; lia |].
  destruct (proj2 (proj2 (X16_display_lines ["l1"; "l2"; "l3"; "l4"])))
    as (a & b & c & rest & E & D); [cbn; lia |].
  injection E as <- <- <- _. exact D.
Defined.

Lemma displayLines_length (textLines : list string) :
  List.length (PdfExport.displayLines textLines)
  = Nat.min 3 (List.length textLines).
Proof.
  destruct textLines as [| a [| b [| c [| d rest]]]]; reflexivity.
Qed.

Lemma pageBreaks_app (a b : list PdfExport.Op) :
  PdfExport.pageBreaks (a ++ b)
  = (PdfExport.pageBreaks a + PdfExport.pageBreaks b)%nat.
Proof.
  induction a as [| op a IH]; [reflexivity |].
  destruct op; cbn; rewrite IH; reflexivity.
Qed.

Ltac within_bounds :=
  repeat (apply Forall_cons;
          [ cbn [PdfExport.drawnWithin];
            first [ exact I
                  | split; [lia | first [left; reflexivity
                                        | right; reflexivity]] ]
          | ]);
  apply Forall_nil.

Section PdfFacts.

Variable splitTextToSize : string -> Z -> list string.
Variable toLocaleString : Z -> string.
Variable toLocaleDateString : Z -> string.
Variable toISOString : Z -> string.

(** One block: where its texts go and where it leaves the cursor. *)
Lemma drawResult_bounds (index : nat) (result : AnalysisResult) (y : Z) :
  List.length (sentiment result) = 3%nat ->
  (30 <= y)%Z ->
  exists ops y',
    PdfExport.drawResult splitTextToSize toLocaleString index result y
    = Some (ops, y') /\
    Forall (PdfExport.drawnWithin 30 314) ops /\
    (30 <= y')%Z /\
    (PdfExport.pageBreaks ops <= 1)%nat /\
    ((y <= 250)%Z -> PdfExport.pageBreaks ops = 0%nat).
Proof.
  intros L Hy. unfold PdfExport.drawResult.
  destruct (sentiment result) as [| a [| b [| c [| d rest]]]];
    try discriminate L.
  cbn [PdfExport.drawScores].
  set (lines := PdfExport.displayLines _).
  assert (Ln : (List.length lines <= 3)%nat).
  { subst lines.
    rewrite displayLines_length. lia. }
  destruct (250 <? y)%Z eqn:NP;
    [apply Z.ltb_lt in NP | apply Z.ltb_ge in NP];
    destruct (0 <? List.length (keywords result))%nat;
    eexists _, _; (split; [reflexivity |]);
    (split; [cbn [app]; within_bounds |]);
    (split; [lia |]); split; cbn; lia.
Qed.

Lemma drawResults_bounds (data : list AnalysisResult) :
  Forall (fun result => List.length (sentiment result) = 3%nat) data ->
  forall (index : nat) (y : Z),
    (30 <= y)%Z ->
    exists ops,
      PdfExport.drawResults splitTextToSize toLocaleString index data y
      = Some ops /\
      Forall (PdfExport.drawnWithin 30 314) ops /\
      (PdfExport.pageBreaks ops <= List.length data)%nat /\
      ((y <= 250)%Z ->
       (PdfExport.pageBreaks ops <= List.length data - 1)%nat).
Proof.
  induction 1 as [| result rest Hr _ IH]; intros index y Hy.
  - exists []. repeat split; cbn; auto.
  - destruct (drawResult_bounds index result y Hr Hy)
      as (ops & y' & E & F & Hy' & P1 & P0).
    destruct (IH (S index) y' Hy') as (more & E' & F' & P' & _).
    cbn [PdfExport.drawResults]. rewrite E, E'.
    exists (ops ++ more). split; [reflexivity |].
    split; [apply Forall_app; now split |].
    rewrite pageBreaks_app. cbn [List.length].
    split; [lia |]. intro Hle. specialize (P0 Hle). lia.
Qed.

End PdfFacts.

(** X17.  The PDF report of results with three sentiments each (as every
    analysis result has) is always saved: every text is placed at a height
    between 30 and 314, at the left margin 20 or the indent 30; the report
    has fewer page breaks than results, the first result never starting a
    new page; and the last call saves the document. *)
Theorem X17_pdf_layout
  (splitTextToSize : string -> Z -> list string)
  (toLocaleString toLocaleDateString toISOString : Z -> string)
  (results : list AnalysisResult) (currentResult : option AnalysisResult)
  (now : Z) :
  let data :=
    match currentResult with
    | Some current => [current]
    | None => results
    end in
  data <> [] ->
  Forall (fun result => List.length (sentiment result) = 3%nat) data ->
  exists ops,
    PdfExport.exportToPDF splitTextToSize toLocaleString toLocaleDateString
                          toISOString results currentResult now
    = PdfExport.Saved
        (ops ++ [PdfExport.Save
                   ("sentiment-analysis-"
                    ++ PdfExport.beforeT (toISOString now) ++ ".pdf")%string]) /\
    Forall (PdfExport.drawnWithin 30 314) ops /\
    (PdfExport.pageBreaks ops < List.length data)%nat.
Proof.
  intros data Hne H3.
  destruct (drawResults_bounds splitTextToSize toLocaleString data H3 0 75
              ltac:(lia))
    as (ops & E & F & _ & P).
  specialize (P ltac:(lia)).
  eexists. split; [| split].
  - unfold PdfExport.exportToPDF, ExportResults.dataToExport. fold data.
    rewrite E.
    assert (G : match currentResult, results with
                | None, [] => False
                | _, _ => True
                end).
    { subst data. destruct currentResult; [exact I |].
      destruct results; [congruence | exact I]. }
    destruct currentResult, results; try contradiction;
      rewrite app_assoc; reflexivity.
  - apply Forall_app. split; [| exact F]. within_bounds.
  - rewrite pageBreaks_app. cbn [PdfExport.pageBreaks Nat.add].
    destruct data; [congruence | cbn [List.length] in *; lia].
Qed.

Lemma X17_pdf_layout_witness :
  let st :=
    Dashboard.run [Dashboard.SetText "good"; Dashboard.Analyze 0]
                  Dashboard.initial in
  exists ops,
    PdfExport.exportToPDF (fun s _ => [s]) toString toString toString
                          (Dashboard.results st) (Dashboard.currentResult st) 5
    = PdfExport.Saved
        (ops ++ [PdfExport.Save
                   ("sentiment-analysis-"
                    ++ PdfExport.beforeT (toString 5) ++ ".pdf")%string]) /\
    Forall (PdfExport.drawnWithin 30 314) ops /\
    (PdfExport.pageBreaks ops < 1)%nat.
Proof.
  intro st.
  apply (X17_pdf_layout (fun s _ => [s]) toString toString toString
           (Dashboard.results st) (Dashboard.currentResult st) 5).
  - vm_compute. discriminate.
  - vm_compute. repeat constructor.
Defined.
